(** * ls.joyous.formats.vtimezone

    A shallow embedding of [src/ls/joyous/formats/vtimezone.py]: the UTC
    normaliser [to_naive_utc] and the VTIMEZONE builder [create_timezone],
    with the properties of the two that the specification states.

    Conventions of the embedding.
    - A Python [int] is a [Z]; list positions are [Z] too, because the
      source subtracts one from them and Python then counts from the end.
    - A [timedelta] is its length in microseconds.
    - A naive [datetime] is the number of microseconds between
      0001-01-01T00:00:00 and its wall clock reading.  A transition instant
      of a zone history and a bound of the date window are positions on the
      UTC time line in the same unit: [astimezone] re-tags a value and keeps
      its instant, so the orderings of lines 103 and 106 are orderings of
      instants.  Python orders two datetimes only when both are naive or
      both are aware, and raises [TypeError] otherwise; lines 74 and 75
      make both bounds aware, so a zone records whether the datetimes of
      its history are aware too.
    - A raised exception is the [Raise] branch of [result]. *)

From Stdlib Require Import ZArith List String Bool Lia Permutation.
Import ListNotations.
Open Scope Z_scope.

(** ** Python values and exceptions *)

Inductive pyerror : Type :=
| IndexError
| AttributeError
| OverflowError
| TypeError
| ValueError (msg : string).

Inductive result (A : Type) : Type :=
| Ok (a : A)
| Raise (e : pyerror).

Arguments Ok {A} a.
Arguments Raise {A} e.

Definition bind {A B : Type} (r : result A) (k : A -> result B) : result B :=
  match r with
  | Ok a => k a
  | Raise e => Raise e
  end.

Notation "'do' x <- r ;; k" := (bind r (fun x => k))
  (at level 10, x name, r at level 100, k at level 200).

(** The values a zone history may hold where an offset or a flag is
    expected.  Only [PyTimedelta] passes [isinstance(_, dt.timedelta)]. *)
Inductive pyval : Type :=
| PyNone
| PyBool (b : bool)
| PyInt (n : Z)
| PyStr (s : string)
| PyTimedelta (us : Z).

Definition is_timedelta (v : pyval) : bool :=
  match v with
  | PyTimedelta _ => true
  | _ => false
  end.

(** [str(type(v))], as an f-string shows it. *)
Definition type_repr (v : pyval) : string :=
  match v with
  | PyNone => "<class 'NoneType'>"
  | PyBool _ => "<class 'bool'>"
  | PyInt _ => "<class 'int'>"
  | PyStr _ => "<class 'str'>"
  | PyTimedelta _ => "<class 'datetime.timedelta'>"
  end.

(** Truth value of [if v:]. *)
Definition truthy (v : pyval) : bool :=
  match v with
  | PyNone => false
  | PyBool b => b
  | PyInt n => negb (n =? 0)
  | PyStr s => negb (String.eqb s EmptyString)
  | PyTimedelta us => negb (us =? 0)
  end.

(** [l[i]]: positions below zero count from the end, anything outside
    raises [IndexError]. *)
Definition py_index {A : Type} (l : list A) (i : Z) : result A :=
  let n := Z.of_nat (List.length l) in
  let j := if i <? 0 then i + n else i in
  if (0 <=? j) && (j <? n)
  then match nth_error l (Z.to_nat j) with
       | Some a => Ok a
       | None => Raise IndexError
       end
  else Raise IndexError.

(** [range(a, b)]. *)
Definition py_range (a b : Z) : list Z :=
  map (fun k => a + Z.of_nat k) (seq 0 (Z.to_nat (b - a))).

(** ** The calendar of [datetime] *)

Definition US_PER_SECOND : Z := 1000000.
Definition US_PER_DAY : Z := 86400 * US_PER_SECOND.

Definition is_leap (y : Z) : bool :=
  ((y mod 4 =? 0) && negb (y mod 100 =? 0)) || (y mod 400 =? 0).

Definition days_before_year (y : Z) : Z :=
  let p := y - 1 in p * 365 + p / 4 - p / 100 + p / 400.

Definition days_in_month (y m : Z) : Z :=
  if m =? 2 then (if is_leap y then 29 else 28)
  else if (m =? 4) || (m =? 6) || (m =? 9) || (m =? 11) then 30
  else 31.

Definition days_before_month (y m : Z) : Z :=
  fold_right Z.add 0 (map (days_in_month y) (py_range 1 m)).

(** Proleptic Gregorian ordinal, 0001-01-01 being day 1. *)
Definition ymd2ord (y m d : Z) : Z :=
  days_before_year y + days_before_month y m + d.

(** [dt.datetime(y, m, d)], a naive midnight. *)
Definition naive_datetime (y m d : Z) : Z :=
  (ymd2ord y m d - 1) * US_PER_DAY.

Definition MINYEAR : Z := 1.
Definition MAXYEAR : Z := 9999.

(** [datetime.min] and the first reading past [datetime.max]. *)
Definition datetime_min : Z := naive_datetime MINYEAR 1 1.
Definition datetime_end : Z := naive_datetime (MAXYEAR + 1) 1 1.

Definition in_datetime_range (w : Z) : bool :=
  (datetime_min <=? w) && (w <? datetime_end).

(** ** Datetime-like values *)

(** A [tzinfo]: its name and its UTC offset at a wall clock reading. *)
Record tzinfo : Type := {
  tzinfo_name : string;
  tzinfo_utcoffset : Z -> Z
}.

Definition pytz_UTC : tzinfo :=
  {| tzinfo_name := "UTC"; tzinfo_utcoffset := fun _ => 0 |}.

(** What [to_naive_utc] is handed: a [date], which has no [tzinfo]
    attribute, or a [datetime] or a [time], whose [tzinfo] is [None] or a
    zone.  A [time] is the number of microseconds since midnight; it has
    no [astimezone]. *)
Inductive pydt : Type :=
| PyDate (ordinal : Z)
| PyDatetime (wall : Z) (tz : option tzinfo)
| PyTime (micro : Z) (tz : option tzinfo).

Definition hasattr_tzinfo (v : pydt) : bool :=
  match v with
  | PyDate _ => false
  | PyDatetime _ _ => true
  | PyTime _ _ => true
  end.

Definition get_tzinfo (v : pydt) : option tzinfo :=
  match v with
  | PyDate _ => None
  | PyDatetime _ tz => tz
  | PyTime _ tz => tz
  end.

(** [wall - offset], the subtraction [astimezone] starts with; a result
    outside [datetime.min .. datetime.max] is "date value out of range". *)
Definition datetime_sub (wall delta : Z) : result Z :=
  let u := wall - delta in
  if in_datetime_range u then Ok u else Raise OverflowError.

(** [d.astimezone(pytz.UTC)] for a value [d] whose [tzinfo] is [tz].  On
    a datetime: to UTC with the offset of its own zone, then
    [pytz.UTC.fromutc], which adds nothing.  A [time] has no such method,
    and the attribute look-up raises. *)
Definition astimezone_UTC (d : pydt) (tz : tzinfo) : result pydt :=
  match d with
  | PyDatetime wall _ =>
      do utc <- datetime_sub wall (tzinfo_utcoffset tz wall) ;;
      Ok (PyDatetime utc (Some pytz_UTC))
  | _ => Raise AttributeError
  end.

(** [d.replace(tzinfo=None)]. *)
Definition replace_tzinfo_None (v : pydt) : pydt :=
  match v with
  | PyDate o => PyDate o
  | PyDatetime w _ => PyDatetime w None
  | PyTime t _ => PyTime t None
  end.

Definition wall_clock (v : pydt) : Z :=
  match v with
  | PyDate o => (o - 1) * US_PER_DAY
  | PyDatetime w _ => w
  | PyTime t _ => t
  end.

(** Lines 32-41. *)
Definition to_naive_utc (dtime : pydt) : result pydt :=
  if negb (hasattr_tzinfo dtime) then Ok dtime
  else match get_tzinfo dtime with
       | None => Ok dtime
       | Some tz =>
           do dtime_utc <- astimezone_UTC dtime tz ;;
           let dtime_naive := replace_tzinfo_None dtime_utc in
           Ok dtime_naive
       end.

(** A value that carries no zone: no [tzinfo] attribute, or [None] in it. *)
Definition carries_no_zone (v : pydt) : Prop :=
  hasattr_tzinfo v = false \/ get_tzinfo v = None.


(** ** Zones *)

(** An entry of [tz._transition_info]: [(utcoffset, dst, tzname)]. *)
Definition transition_info_entry : Type := (pyval * pyval * string)%type.

Definition info_utcoffset (e : transition_info_entry) : pyval := fst (fst e).
Definition info_dst (e : transition_info_entry) : pyval := snd (fst e).
Definition info_tzname (e : transition_info_entry) : string := snd e.

(** What [create_timezone] reads of its argument [tz].  An attribute the
    object may lack is an [option].  [aware_history] tells whether the
    datetimes of [_utc_transition_times] carry a [tzinfo] (pytz stores
    naive ones); the list is all of one kind.  [fromutc t] is what
    [tz.fromutc(t)] does on the instant [t] of the history: the wall clock
    reading of its result, which [.replace(tzinfo=None)] keeps, or the
    exception it raises.

    A [zoneinfo.ZoneInfo] is a [dt.tzinfo] that has no
    [_utc_transition_times], so line 57 answers it and the conversion of
    lines 70-72 is not reached with one; it is not modelled. *)
Record tzobject : Type := {
  is_tzinfo : bool;
  zone : option string;
  str : string;
  utcoffset_None : pyval;
  utc_transition_times : option (list Z);
  aware_history : bool;
  transition_info : list transition_info_entry;
  fromutc : Z -> result Z
}.

(** ** The component tree *)

(** [icalendar.TimezoneStandard] and [icalendar.TimezoneDaylight]. *)
Inductive subcomponent_class : Type :=
| STANDARD
| DAYLIGHT.

(** [RDATE] is absent ([None]) or a list of datetimes ([.dts]). *)
Record Subcomponent : Type := {
  component : subcomponent_class;
  TZNAME : string;
  DTSTART : Z;
  TZOFFSETTO : Z;
  TZOFFSETFROM : Z;
  RDATE : option (list Z)
}.

Record Timezone : Type := {
  TZID : string;
  subcomponents : list Subcomponent
}.

(** [timedelta(seconds=s)]. *)
Definition timedelta_seconds (s : Z) : Z := s * US_PER_SECOND.

(** ** The dictionary [timezones]

    A Python [dict] keeps its keys in the order they were first set, and
    line 142 reads the values in that order: an association list. *)
Definition dict : Type := list (string * Subcomponent).

Fixpoint dict_get (name : string) (d : dict) : option Subcomponent :=
  match d with
  | [] => None
  | (k, v) :: rest => if String.eqb k name then Some v else dict_get name rest
  end.

(** [d[name] = v]: in place when the key is there, at the end when not. *)
Fixpoint dict_set (name : string) (v : Subcomponent) (d : dict) : dict :=
  match d with
  | [] => [(name, v)]
  | (k, x) :: rest =>
      if String.eqb k name then (k, v) :: rest
      else (k, x) :: dict_set name v rest
  end.

Definition dict_values (d : dict) : list Subcomponent := map snd d.

(** Lines 115-119, on the sub-component the dictionary refers to. *)
Definition add_RDATE (sub : Subcomponent) (ttime : Z) : Subcomponent :=
  {| component := component sub;
     TZNAME := TZNAME sub;
     DTSTART := DTSTART sub;
     TZOFFSETTO := TZOFFSETTO sub;
     TZOFFSETFROM := TZOFFSETFROM sub;
     RDATE := match RDATE sub with
              | Some dts => Some (dts ++ [ttime])
              | None => Some [ttime]
              end |}.

(** ** The window scan, lines 98-108 *)

Record scan_state : Type := {
  first_num : Z;
  first_tt : Z;
  last_num : Z;
  last_tt : Z
}.

(** An ordering of an instant of the history against a bound of the
    window: the bound is aware, so the history has to be. *)
Definition against_bound (aware : bool) (answer : bool) : result bool :=
  if aware then Ok answer else Raise TypeError.

(** Lines 103-108.  [and] asks its right side only when the left side
    holds; the left sides order two instants of the history. *)
Definition scan_step (aware : bool) (first_date last_date : Z)
    (st : scan_state) (num transtime : Z) : result scan_state :=
  do before <- (if transtime >? first_tt st
                then against_bound aware (transtime <? first_date)
                else Ok false) ;;
  let st :=
    if before
    then {| first_num := num; first_tt := transtime;
            last_num := last_num st; last_tt := last_tt st |}
    else st in
  do after <- (if transtime <? last_tt st
               then against_bound aware (transtime >? last_date)
               else Ok false) ;;
  Ok (if after
      then {| first_num := first_num st; first_tt := first_tt st;
              last_num := num; last_tt := transtime |}
      else st).

(** [for num, transtime in enumerate(...)], from position [num] on. *)
Fixpoint scan_loop (aware : bool) (first_date last_date : Z) (num : Z)
    (rest : list Z) (st : scan_state) : result scan_state :=
  match rest with
  | [] => Ok st
  | transtime :: rest' =>
      do st' <- scan_step aware first_date last_date st num transtime ;;
      scan_loop aware first_date last_date (num + 1) rest' st'
  end.

Definition scan (aware : bool) (times : list Z) (first_date last_date : Z)
    : result scan_state :=
  let first_num := 0 in
  let last_num := Z.of_nat (List.length times) - 1 in
  do first_tt <- py_index times 0 ;;
  do last_tt <- py_index times (-1) ;;
  scan_loop aware first_date last_date 0 times
    {| first_num := first_num; first_tt := first_tt;
       last_num := last_num; last_tt := last_tt |}.

(** ** The grouping loop, lines 110-140 *)

Definition TZOFFSET_message : string :=
  "TZOFFSET values must be timedelta instances".

Definition group_step (tz : tzobject) (times : list Z) (timezones : dict)
    (num : Z) : result dict :=
  do info <- py_index (transition_info tz) num ;;
  let name := info_tzname info in
  match dict_get name timezones with
  | Some sub =>
      do transtime <- py_index times num ;;
      do ttime <- fromutc tz transtime ;;
      Ok (dict_set name (add_RDATE sub ttime) timezones)
  | None =>
      let cls := if truthy (info_dst info) then DAYLIGHT else STANDARD in
      do transtime <- py_index times num ;;
      do dtstart <- fromutc tz transtime ;;
      let tzoffsetto := info_utcoffset info in
      do previous <- py_index (transition_info tz) (num - 1) ;;
      let tzoffsetfrom := info_utcoffset previous in
      match tzoffsetto, tzoffsetfrom with
      | PyTimedelta offsetto, PyTimedelta offsetfrom =>
          Ok (dict_set name
                {| component := cls;
                   TZNAME := info_tzname info;
                   DTSTART := dtstart;
                   TZOFFSETTO := offsetto;
                   TZOFFSETFROM := offsetfrom;
                   RDATE := None |}
                timezones)
      | _, _ => Raise (ValueError TZOFFSET_message)
      end
  end.

Fixpoint group_loop (tz : tzobject) (times : list Z) (nums : list Z)
    (timezones : dict) : result dict :=
  match nums with
  | [] => Ok timezones
  | num :: nums' =>
      do timezones' <- group_step tz times timezones num ;;
      group_loop tz times nums' timezones'
  end.

(** The instant of [now if not d else d.astimezone(tz)]. *)
Definition or_now (now : Z) (d : option Z) : Z :=
  match d with
  | None => now
  | Some instant => instant
  end.

(** Lines 74 and 75: [dt.datetime.now(tz)] and [d.astimezone(tz)] accept
    a [tzinfo] only, and raise [TypeError] on anything else.  On a
    [tzinfo] they give an aware datetime at the instant they were given;
    a bound is a [datetime], as the docstring has it. *)
Definition in_zone (tz : tzobject) (now : Z) (d : option Z) : result Z :=
  if is_tzinfo tz then Ok (or_now now d) else Raise TypeError.

(** ** [create_timezone], lines 43-145

    [now_first] and [now_last] are the two readings of
    [dt.datetime.now(tz)] on lines 74 and 75. *)
Definition create_timezone (now_first now_last : Z) (tz : tzobject)
    (first_date last_date : option Z) : result Timezone :=
  let tzname := match zone tz with Some z => z | None => str tz end in
  if is_tzinfo tz &&
     negb (match utc_transition_times tz with Some _ => true | None => false end)
  then
    let offset := utcoffset_None tz in
    let offset_seconds := 0 in
    let offset := timedelta_seconds offset_seconds in
    let subcomp :=
      {| component := STANDARD;
         TZNAME := tzname;
         DTSTART := naive_datetime 1601 1 1;
         TZOFFSETTO := offset;
         TZOFFSETFROM := offset;
         RDATE := None |} in
    Ok {| TZID := tzname; subcomponents := [subcomp] |}
  else
    do first_date <- in_zone tz now_first first_date ;;
    do last_date <- in_zone tz now_last last_date ;;
    match utc_transition_times tz with
    | None => Raise AttributeError
    | Some times =>
        do st <- scan (aware_history tz) times first_date last_date ;;
        do timezones <- group_loop tz times
                       (py_range (first_num st) (last_num st + 1)) [] ;;
        Ok {| TZID := str tz; subcomponents := dict_values timezones |}
    end.

(** Lines 148-170, the static builder the module keeps beside
    [create_timezone]. *)
Definition _create_timezone_static (tz : tzobject) : result Timezone :=
  match utcoffset_None tz with
  | PyTimedelta offset =>
      Ok {| TZID := str tz;
            subcomponents :=
              [ {| component := STANDARD;
                   TZNAME := str tz;
                   DTSTART := naive_datetime 1601 1 1;
                   TZOFFSETTO := offset;
                   TZOFFSETFROM := offset;
                   RDATE := None |} ] |}
  | offset =>
      Raise (ValueError
               (String.append "Expected timedelta, got " (type_repr offset)))
  end.

(** ** Vocabulary of the statements *)

(** The instant at position [i] of a history. *)
Definition time_at (times : list Z) (i : Z) : Z := nth (Z.to_nat i) times 0.

Definition valid_index (times : list Z) (i : Z) : Prop :=
  0 <= i < Z.of_nat (List.length times).

(** A position whose instant is strictly after transition 0's and strictly
    before [first_date]. *)
Definition before_window (times : list Z) (first_date i : Z) : Prop :=
  valid_index times i /\
  time_at times i > time_at times 0 /\ time_at times i < first_date.

(** A position whose instant is strictly before the final transition's and
    strictly after [last_date]. *)
Definition after_window (times : list Z) (last_date i : Z) : Prop :=
  valid_index times i /\
  time_at times i < time_at times (Z.of_nat (List.length times) - 1) /\
  time_at times i > last_date.

(** [f] is the latest position of [before_window], or 0 when there is none. *)
Definition latest_before_window (times : list Z) (first_date f : Z) : Prop :=
  (before_window times first_date f /\
   forall j, before_window times first_date j -> j <= f) \/
  (f = 0 /\ forall j, ~ before_window times first_date j).

(** [l] is the earliest position of [after_window], or the last position
    when there is none. *)
Definition earliest_after_window (times : list Z) (last_date l : Z) : Prop :=
  (after_window times last_date l /\
   forall j, after_window times last_date j -> l <= j) \/
  (l = Z.of_nat (List.length times) - 1 /\
   forall j, ~ after_window times last_date j).

(** Chronological order of a history, strict and with ties allowed. *)
Definition increasing (times : list Z) : Prop :=
  forall i j, 0 <= i -> i < j -> j < Z.of_nat (List.length times) ->
              time_at times i < time_at times j.

Definition nondecreasing (times : list Z) : Prop :=
  forall i j, 0 <= i -> i < j -> j < Z.of_nat (List.length times) ->
              time_at times i <= time_at times j.

(** Reads of the history at a position inside it. *)
Definition default_entry : transition_info_entry :=
  (PyNone, PyNone, EmptyString).

Definition entry_at (tz : tzobject) (i : Z) : transition_info_entry :=
  nth (Z.to_nat i) (transition_info tz) default_entry.

Definition name_at (tz : tzobject) (i : Z) : string :=
  info_tzname (entry_at tz i).

Definition offset_at (tz : tzobject) (i : Z) : pyval :=
  info_utcoffset (entry_at tz i).

(** The local, naive start time of transition [i]: what [tz.fromutc]
    returns for its instant.  Where [tz.fromutc] raises, the build raises
    with it and no tree shows a start time (lemma [selected_fromutc]). *)
Definition local_start (tz : tzobject) (times : list Z) (i : Z) : Z :=
  match fromutc tz (time_at times i) with
  | Ok ttime => ttime
  | Raise _ => 0
  end.

(** A zone with a history: the attribute is there, it is not empty, and
    [_transition_info] has an entry per instant. *)
Definition dynamic_zone (tz : tzobject) (times : list Z) : Prop :=
  utc_transition_times tz = Some times /\
  times <> [] /\
  List.length (transition_info tz) = List.length times.

(** A zone without a history. *)
Definition static_zone (tz : tzobject) : Prop :=
  is_tzinfo tz = true /\ utc_transition_times tz = None.

(** The positions of [nums] that carry the name [key], in order. *)
Definition occurrences (tz : tzobject) (key : string) (nums : list Z)
    : list Z :=
  filter (fun num => String.eqb (name_at tz num) key) nums.

(** [num] is the first position of [nums] with its name. *)
Definition first_occurrence (tz : tzobject) (nums : list Z) (num : Z)
    : Prop :=
  exists pre post,
    nums = pre ++ num :: post /\
    ~ In (name_at tz num) (map (name_at tz) pre).

(** Both offsets line 135 tests at position [num] are timedeltas. *)
Definition offsets_are_timedelta (tz : tzobject) (num : Z) : bool :=
  is_timedelta (offset_at tz num) &&
  match py_index (transition_info tz) (num - 1) with
  | Ok previous => is_timedelta (info_utcoffset previous)
  | Raise _ => false
  end.

(** The names of a list in the order they are first seen. *)
Definition first_seen (names : list string) : list string :=
  fold_left
    (fun acc x => if existsb (String.eqb x) acc then acc else acc ++ [x])
    names [].

Definition RDATE_of (later : list Z) : option (list Z) :=
  match later with
  | [] => None
  | _ :: _ => Some later
  end.

Definition RDATE_values (sub : Subcomponent) : list Z :=
  match RDATE sub with
  | Some dts => dts
  | None => []
  end.

(** [sub] is what the positions of [nums] named [key] make: the first one
    gives the class, DTSTART and the two offsets, the later ones the
    RDATE values. *)
Definition made_from (tz : tzobject) (times : list Z) (nums : list Z)
    (key : string) (sub : Subcomponent) : Prop :=
  exists first later,
    occurrences tz key nums = first :: later /\
    TZNAME sub = key /\
    component sub =
      (if truthy (info_dst (entry_at tz first)) then DAYLIGHT else STANDARD) /\
    DTSTART sub = local_start tz times first /\
    offset_at tz first = PyTimedelta (TZOFFSETTO sub) /\
    (exists previous,
        py_index (transition_info tz) (first - 1) = Ok previous /\
        info_utcoffset previous = PyTimedelta (TZOFFSETFROM sub)) /\
    RDATE sub = RDATE_of (map (local_start tz times) later).

(** Every start time a tree shows, with the name it is shown under. *)
Definition rendered_sub (sub : Subcomponent) : list (string * Z) :=
  (TZNAME sub, DTSTART sub) :: map (pair (TZNAME sub)) (RDATE_values sub).

Definition rendered (subs : list Subcomponent) : list (string * Z) :=
  flat_map rendered_sub subs.

(** The transition at a position, as it is rendered. *)
Definition transition_row (tz : tzobject) (times : list Z) (num : Z)
    : string * Z :=
  (name_at tz num, local_start tz times num).

(** What a step of the scan leaves when none of its orderings raises. *)
Definition scan_step_defined (first_date last_date : Z) (st : scan_state)
    (num transtime : Z) : scan_state :=
  let st :=
    if (transtime >? first_tt st) && (transtime <? first_date)
    then {| first_num := num; first_tt := transtime;
            last_num := last_num st; last_tt := last_tt st |}
    else st in
  if (transtime <? last_tt st) && (transtime >? last_date)
  then {| first_num := first_num st; first_tt := first_tt st;
          last_num := num; last_tt := transtime |}
  else st.

(** The state the scan starts from. *)
Definition scan_start (times : list Z) : scan_state :=
  {| first_num := 0;
     first_tt := time_at times 0;
     last_num := Z.of_nat (List.length times) - 1;
     last_tt := time_at times (Z.of_nat (List.length times) - 1) |}.

(** What the scan keeps true.  [scan_bounds] needs no order on the
    history; [scan_exact] is the state after the positions below [k] of a
    strictly increasing one. *)
Definition scan_bounds (times : list Z) (first_date last_date : Z)
    (st : scan_state) : Prop :=
  valid_index times (first_num st) /\
  valid_index times (last_num st) /\
  first_tt st = time_at times (first_num st) /\
  last_tt st = time_at times (last_num st) /\
  (first_num st = 0 \/ time_at times (first_num st) < first_date) /\
  (last_num st = Z.of_nat (List.length times) - 1 \/
   time_at times (last_num st) > last_date).

Definition first_exact (times : list Z) (first_date k f : Z) : Prop :=
  (f = 0 /\ forall j, j < k -> ~ before_window times first_date j) \/
  (before_window times first_date f /\
   f < k /\
   forall j, j < k -> before_window times first_date j -> j <= f).

Definition last_exact (times : list Z) (last_date k l : Z) : Prop :=
  (l = Z.of_nat (List.length times) - 1 /\
   forall j, j < k -> ~ after_window times last_date j) \/
  (after_window times last_date l /\
   l < k /\
   forall j, j < k -> after_window times last_date j -> l <= j).

Definition scan_exact (times : list Z) (first_date last_date k : Z)
    (st : scan_state) : Prop :=
  first_tt st = time_at times (first_num st) /\
  last_tt st = time_at times (last_num st) /\
  first_exact times first_date k (first_num st) /\
  last_exact times last_date k (last_num st).

(** What the grouping loop keeps true of [timezones] once the positions
    [nums] are done. *)
Definition group_invariant (tz : tzobject) (times : list Z) (nums : list Z)
    (timezones : dict) : Prop :=
  map fst timezones = first_seen (map (name_at tz) nums) /\
  (forall key sub,
      dict_get key timezones = Some sub ->
      made_from tz times nums key sub) /\
  Permutation (rendered (dict_values timezones))
              (map (transition_row tz times) nums).

(** ** Sample zones

    Zones in the layout of the timezone database, used where a property
    is shown on a concrete input. *)

(** [wall + offset], out of range as for [datetime_sub]. *)
Definition datetime_add (wall delta : Z) : result Z :=
  let u := wall + delta in
  if in_datetime_range u then Ok u else Raise OverflowError.

(** [bisect_right(a, x)] on a sorted list: how many entries are at or
    before [x]. *)
Definition bisect_right (a : list Z) (x : Z) : Z :=
  Z.of_nat (List.length (filter (fun y => y <=? x) a)).

(** pytz's [fromutc] on a zone with a history: the entry of the last
    transition at or before the instant (the first entry when there is
    none), and its offset added to the instant; an offset that is no
    timedelta cannot be added to a datetime. *)
Definition pytz_fromutc (times : list Z) (info : list transition_info_entry)
    (t : Z) : result Z :=
  let idx := Z.max 0 (bisect_right times t - 1) in
  do inf <- py_index info idx ;;
  match info_utcoffset inf with
  | PyTimedelta offset => datetime_add t offset
  | _ => Raise TypeError
  end.

Definition hours (h : Z) : Z := h * 3600 * US_PER_SECOND.
Definition minutes (m : Z) : Z := m * 60 * US_PER_SECOND.

(** [dt.timezone(timedelta(hours=1))]. *)
Definition fixed_plus_one_hour : tzinfo :=
  {| tzinfo_name := "UTC+01:00"; tzinfo_utcoffset := fun _ => hours 1 |}.

(** [pytz.timezone('Etc/GMT-1')], a static zone one hour east of UTC. *)
Definition Etc_GMT_minus_1 : tzobject :=
  {| is_tzinfo := true;
     zone := Some "Etc/GMT-1"%string;
     str := "Etc/GMT-1"%string;
     utcoffset_None := PyTimedelta (hours 1);
     utc_transition_times := None;
     aware_history := false;
     transition_info := [];
     fromutc := fun t => datetime_add t (hours 1) |}.

(** A static zone whose [utcoffset] answers a plain number of seconds. *)
Definition static_plain_number : tzobject :=
  {| is_tzinfo := true;
     zone := None;
     str := "Plain"%string;
     utcoffset_None := PyInt 3600;
     utc_transition_times := None;
     aware_history := false;
     transition_info := [];
     fromutc := fun t => datetime_add t (hours 1) |}.

(** A history of four transitions: local mean time, then summer, winter
    and summer time again. *)
Definition sample_times : list Z :=
  [ datetime_min;
    naive_datetime 2023 3 26 + hours 1;
    naive_datetime 2023 10 29 + hours 1;
    naive_datetime 2024 3 31 + hours 1 ].

Definition sample_info : list transition_info_entry :=
  [ (PyTimedelta (minutes 9), PyTimedelta 0, "LMT"%string);
    (PyTimedelta (hours 2), PyTimedelta (hours 1), "CEST"%string);
    (PyTimedelta (hours 1), PyTimedelta 0, "CET"%string);
    (PyTimedelta (hours 2), PyTimedelta (hours 1), "CEST"%string) ].

(** The same history with the first offset stored as a plain number of
    seconds. *)
Definition sample_info_plain_number : list transition_info_entry :=
  [ (PyInt 540, PyTimedelta 0, "LMT"%string);
    (PyTimedelta (hours 2), PyTimedelta (hours 1), "CEST"%string);
    (PyTimedelta (hours 1), PyTimedelta 0, "CET"%string);
    (PyTimedelta (hours 2), PyTimedelta (hours 1), "CEST"%string) ].

(** A zone on the sample history, in pytz's layout; [aware] tells whether
    the datetimes of the history are aware, as the bounds of the window
    are, or naive, as pytz stores them. *)
Definition sample_zone_with (aware : bool)
    (info : list transition_info_entry) : tzobject :=
  {| is_tzinfo := true;
     zone := Some "Europe/Sample"%string;
     str := "Europe/Sample"%string;
     utcoffset_None := PyNone;
     utc_transition_times := Some sample_times;
     aware_history := aware;
     transition_info := info;
     fromutc := pytz_fromutc sample_times info |}.

Definition sample_zone : tzobject := sample_zone_with true sample_info.

Definition sample_zone_plain_number : tzobject :=
  sample_zone_with true sample_info_plain_number.

(** The sample zone as pytz builds it: a naive history. *)
Definition sample_zone_naive : tzobject := sample_zone_with false sample_info.

(** A window from June 2023 to January 2024 on the sample history: it
    selects the transitions 1 to 3, named CEST, CET, CEST. *)
Definition sample_first_date : Z := naive_datetime 2023 6 1.
Definition sample_last_date : Z := naive_datetime 2024 1 1.

Definition sample_state : scan_state :=
  {| first_num := 1;
     first_tt := time_at sample_times 1;
     last_num := 3;
     last_tt := time_at sample_times 3 |}.

Definition sample_tree : Timezone :=
  {| TZID := "Europe/Sample";
     subcomponents :=
       [ {| component := DAYLIGHT;
            TZNAME := "CEST";
            DTSTART := local_start sample_zone sample_times 1;
            TZOFFSETTO := hours 2;
            TZOFFSETFROM := minutes 9;
            RDATE := Some [local_start sample_zone sample_times 3] |};
         {| component := STANDARD;
            TZNAME := "CET";
            DTSTART := local_start sample_zone sample_times 2;
            TZOFFSETTO := hours 1;
            TZOFFSETFROM := hours 2;
            RDATE := None |} ] |}.

(** A window that opens in January 2023, before the first transition
    after local mean time: it selects the whole history. *)
Definition early_first_date : Z := naive_datetime 2023 1 1.

Definition early_state : scan_state :=
  {| first_num := 0;
     first_tt := time_at sample_times 0;
     last_num := 3;
     last_tt := time_at sample_times 3 |}.

Definition early_tree : Timezone :=
  {| TZID := "Europe/Sample";
     subcomponents :=
       {| component := STANDARD;
          TZNAME := "LMT";
          DTSTART := local_start sample_zone sample_times 0;
          TZOFFSETTO := minutes 9;
          TZOFFSETFROM := hours 2;
          RDATE := None |} :: subcomponents sample_tree |}.

(** Order of the sample history, position by position. *)
Ltac sample_positions i j Hi Hij Hj :=
  intros i j Hi Hij Hj; cbn in Hj;
  assert (Ei : i = 0 \/ i = 1 \/ i = 2) by lia;
  assert (Ej : j = 1 \/ j = 2 \/ j = 3) by lia;
  destruct Ei as [-> | [-> | ->]]; destruct Ej as [-> | [-> | ->]];
  try lia; vm_compute; congruence.

(** [f] is the last position whose instant is strictly before
    [first_date], or 0 when no instant is. *)
Definition last_before (times : list Z) (first_date f : Z) : Prop :=
  (valid_index times f /\
   time_at times f < first_date /\
   forall j, valid_index times j -> time_at times j < first_date -> j <= f) \/
  (f = 0 /\
   forall j, valid_index times j -> first_date <= time_at times j).

(** [l] is the first position whose instant is strictly after
    [last_date], or the last position when no instant is. *)
Definition first_after (times : list Z) (last_date l : Z) : Prop :=
  (valid_index times l /\
   last_date < time_at times l /\
   forall j, valid_index times j -> last_date < time_at times j -> l <= j) \/
  (l = Z.of_nat (List.length times) - 1 /\
   forall j, valid_index times j -> time_at times j <= last_date).

(** A window that opens and closes after the last transition of the
    sample history: it selects position 3 alone. *)
Definition late_date : Z := naive_datetime 2025 1 1.

Definition late_state : scan_state :=
  {| first_num := 3;
     first_tt := time_at sample_times 3;
     last_num := 3;
     last_tt := time_at sample_times 3 |}.

Definition late_tree : Timezone :=
  {| TZID := "Europe/Sample";
     subcomponents :=
       [ {| component := DAYLIGHT;
            TZNAME := "CEST";
            DTSTART := local_start sample_zone sample_times 3;
            TZOFFSETTO := hours 2;
            TZOFFSETFROM := hours 1;
            RDATE := None |} ] |}.

(** A window collapsed on the first of June 2023, between the
    transitions 1 and 2 of the sample history. *)
Definition june_state : scan_state :=
  {| first_num := 1;
     first_tt := time_at sample_times 1;
     last_num := 2;
     last_tt := time_at sample_times 2 |}.

(** A zone whose history has one entry, naive as pytz stores it. *)
Definition single_zone : tzobject :=
  {| is_tzinfo := true;
     zone := Some "Asia/Single"%string;
     str := "Asia/Single"%string;
     utcoffset_None := PyNone;
     utc_transition_times := Some [datetime_min];
     aware_history := false;
     transition_info := [(PyTimedelta (hours 8), PyTimedelta 0, "SGT"%string)];
     fromutc :=
       pytz_fromutc [datetime_min]
         [(PyTimedelta (hours 8), PyTimedelta 0, "SGT"%string)] |}.

(** A zone object whose history is there and empty. *)
Definition empty_history_zone : tzobject :=
  {| is_tzinfo := true;
     zone := None;
     str := "Empty"%string;
     utcoffset_None := PyNone;
     utc_transition_times := Some [];
     aware_history := false;
     transition_info := [];
     fromutc := fun t => Ok t |}.

(** The sample history with the information of its last two transitions
    missing. *)
Definition short_info_zone : tzobject :=
  {| is_tzinfo := true;
     zone := Some "Europe/Short"%string;
     str := "Europe/Short"%string;
     utcoffset_None := PyNone;
     utc_transition_times := Some sample_times;
     aware_history := true;
     transition_info := firstn 2 sample_info;
     fromutc := pytz_fromutc sample_times (firstn 2 sample_info) |}.

(** An object that is no [tzinfo] and has no history. *)
Definition not_a_zone : tzobject :=
  {| is_tzinfo := false;
     zone := None;
     str := "object"%string;
     utcoffset_None := PyNone;
     utc_transition_times := None;
     aware_history := false;
     transition_info := [];
     fromutc := fun t => Ok t |}.


(** [pytz.utc] as a zone object: a static zone at UTC. *)
Definition UTC_zone : tzobject :=
  {| is_tzinfo := true;
     zone := Some "UTC"%string;
     str := "UTC"%string;
     utcoffset_None := PyTimedelta 0;
     utc_transition_times := None;
     aware_history := false;
     transition_info := [];
     fromutc := fun t => Ok t |}.

(** The first sub-component of [sample_tree]. *)
Definition sample_CEST : Subcomponent :=
  {| component := DAYLIGHT;
     TZNAME := "CEST";
     DTSTART := local_start sample_zone sample_times 1;
     TZOFFSETTO := hours 2;
     TZOFFSETFROM := minutes 9;
     RDATE := Some [local_start sample_zone sample_times 3] |}.


Definition winter_tree : Timezone :=
  {| TZID := "Europe/Sample";
     subcomponents :=
       [ {| component := STANDARD;
            TZNAME := "CET";
            DTSTART := local_start sample_zone sample_times 2;
            TZOFFSETTO := hours 1;
            TZOFFSETFROM := hours 2;
            RDATE := None |};
         {| component := DAYLIGHT;
            TZNAME := "CEST";
            DTSTART := local_start sample_zone sample_times 3;
            TZOFFSETTO := hours 2;
            TZOFFSETFROM := hours 1;
            RDATE := None |} ] |}.

(** * Properties *)

(** ** Indexing and ranges *)

Lemma py_index_inside {A : Type} (l : list A) (i : Z) (d : A) :
  0 <= i < Z.of_nat (List.length l) ->
  py_index l i = Ok (nth (Z.to_nat i) l d).
Proof.
  intros Hi. unfold py_index.
  destruct (i <? 0) eqn:Hneg; [apply Z.ltb_lt in Hneg; lia |].
  replace ((0 <=? i) && (i <? Z.of_nat (List.length l))) with true.
  - destruct (nth_error l (Z.to_nat i)) as [a |] eqn:Hnth.
    + f_equal. symmetry. now apply nth_error_nth.
    + apply nth_error_None in Hnth. lia.
  - symmetry. apply andb_true_iff. split.
    + apply Z.leb_le. lia.
    + apply Z.ltb_lt. lia.
Qed.

Lemma py_index_from_end {A : Type} (l : list A) (i : Z) (d : A) :
  - Z.of_nat (List.length l) <= i < 0 ->
  py_index l i = Ok (nth (Z.to_nat (i + Z.of_nat (List.length l))) l d).
Proof.
  intros Hi. unfold py_index.
  destruct (i <? 0) eqn:Hneg; [| apply Z.ltb_ge in Hneg; lia].
  set (j := i + Z.of_nat (List.length l)).
  replace ((0 <=? j) && (j <? Z.of_nat (List.length l))) with true.
  - destruct (nth_error l (Z.to_nat j)) as [a |] eqn:Hnth.
    + f_equal. symmetry. now apply nth_error_nth.
    + apply nth_error_None in Hnth. lia.
  - symmetry. apply andb_true_iff. split.
    + apply Z.leb_le. lia.
    + apply Z.ltb_lt. lia.
Qed.

Lemma py_index_outside {A : Type} (l : list A) (i : Z) :
  i < - Z.of_nat (List.length l) \/ Z.of_nat (List.length l) <= i ->
  py_index l i = Raise IndexError.
Proof.
  intros Hi. unfold py_index.
  destruct (i <? 0) eqn:Hneg.
  - apply Z.ltb_lt in Hneg.
    replace (0 <=? i + Z.of_nat (List.length l)) with false; [reflexivity |].
    symmetry. apply Z.leb_gt. lia.
  - apply Z.ltb_ge in Hneg.
    replace (i <? Z.of_nat (List.length l)) with false.
    + now rewrite andb_false_r.
    + symmetry. apply Z.ltb_ge. lia.
Qed.

Lemma py_range_empty (a b : Z) : b <= a -> py_range a b = [].
Proof.
  intros H. unfold py_range.
  replace (Z.to_nat (b - a)) with 0%nat by lia. reflexivity.
Qed.

Lemma py_range_cons (a b : Z) :
  a < b -> py_range a b = a :: py_range (a + 1) b.
Proof.
  intros H. unfold py_range.
  replace (Z.to_nat (b - a)) with (S (Z.to_nat (b - (a + 1)))) by lia.
  simpl. f_equal.
  - lia.
  - rewrite <- seq_shift, map_map. apply map_ext. intros k. lia.
Qed.

Lemma py_range_In (a b num : Z) : In num (py_range a b) <-> a <= num < b.
Proof.
  unfold py_range. rewrite in_map_iff. split.
  - intros [k [<- Hk]]. apply in_seq in Hk. lia.
  - intros H. exists (Z.to_nat (num - a)). split; [lia |].
    apply in_seq. lia.
Qed.

Lemma py_range_length (a b : Z) :
  a <= b -> Z.of_nat (List.length (py_range a b)) = b - a.
Proof.
  intros H. unfold py_range. rewrite length_map, length_seq. lia.
Qed.

(** ** The window scan *)

Lemma skipn_cons_nth {A : Type} (m : nat) (l : list A) (a d : A)
    (r : list A) :
  skipn m l = a :: r ->
  nth m l d = a /\ skipn (S m) l = r /\ (m < List.length l)%nat.
Proof.
  revert l. induction m as [| m IH]; intros l H.
  - simpl in H. subst l. simpl. repeat split. lia.
  - destruct l as [| x l]; [discriminate |].
    simpl in H. destruct (IH l H) as [H1 [H2 H3]].
    repeat split; simpl; auto. lia.
Qed.

Lemma scan_step_Ok (aware : bool) (first_date last_date : Z)
    (st st' : scan_state) (num transtime : Z) :
  scan_step aware first_date last_date st num transtime = Ok st' ->
  st' = scan_step_defined first_date last_date st num transtime.
Proof.
  unfold scan_step, scan_step_defined, against_bound.
  destruct (transtime >? first_tt st); destruct aware;
    destruct (transtime <? first_date); cbn [bind andb];
    try discriminate;
    match goal with
    | |- context [transtime <? last_tt ?s] =>
        destruct (transtime <? last_tt s)
    end;
    destruct (transtime >? last_date); cbn [bind andb];
    intros H; first [discriminate H | injection H as <-; reflexivity].
Qed.

Lemma scan_step_aware (first_date last_date : Z) (st : scan_state)
    (num transtime : Z) :
  scan_step true first_date last_date st num transtime
  = Ok (scan_step_defined first_date last_date st num transtime).
Proof.
  unfold scan_step, scan_step_defined, against_bound.
  destruct (transtime >? first_tt st);
    destruct (transtime <? first_date); cbn [bind andb];
    match goal with
    | |- context [transtime <? last_tt ?s] =>
        destruct (transtime <? last_tt s)
    end;
    destruct (transtime >? last_date); reflexivity.
Qed.

Lemma scan_step_bounds (times : list Z) (first_date last_date : Z)
    (st : scan_state) (k : Z) :
  valid_index times k ->
  scan_bounds times first_date last_date st ->
  scan_bounds times first_date last_date
    (scan_step_defined first_date last_date st k (time_at times k)).
Proof.
  intros Hk [Hf [Hl [Hft [Hlt [HF HL]]]]].
  unfold scan_step_defined, scan_bounds.
  destruct ((time_at times k >? first_tt st) &&
            (time_at times k <? first_date)) eqn:C1;
    cbn [first_num first_tt last_num last_tt];
    destruct ((time_at times k <? last_tt st) &&
              (time_at times k >? last_date)) eqn:C2;
    cbn [first_num first_tt last_num last_tt];
    try (apply andb_true_iff in C1; destruct C1 as [C1a C1b];
         apply Z.ltb_lt in C1b);
    try (apply andb_true_iff in C2; destruct C2 as [C2a C2b];
         apply Z.gtb_lt in C2b);
    repeat split; auto; try (apply Hf); try (apply Hl); try (apply Hk);
    try (right; lia).
Qed.

Lemma scan_loop_bounds (aware : bool) (times : list Z)
    (first_date last_date : Z) :
  forall rest k st st',
    0 <= k ->
    skipn (Z.to_nat k) times = rest ->
    scan_bounds times first_date last_date st ->
    scan_loop aware first_date last_date k rest st = Ok st' ->
    scan_bounds times first_date last_date st'.
Proof.
  induction rest as [| t rest IH]; intros k st st' Hk Hskip Hst Hloop.
  - injection Hloop as <-. exact Hst.
  - destruct (skipn_cons_nth _ _ _ 0 _ Hskip) as [Hnth [Hrest Hlen]].
    cbn [scan_loop] in Hloop.
    destruct (scan_step aware first_date last_date st k t)
      as [st1 | e] eqn:Hstep; cbn [bind] in Hloop; [| discriminate].
    apply scan_step_Ok in Hstep. subst st1.
    refine (IH (k + 1) _ st' _ _ _ Hloop); [lia | |].
    + replace (Z.to_nat (k + 1)) with (S (Z.to_nat k)) by lia. exact Hrest.
    + replace t with (time_at times k) by exact Hnth.
      apply scan_step_bounds; [| exact Hst].
      unfold valid_index. lia.
Qed.

Lemma scan_nonempty (aware : bool) (times : list Z)
    (first_date last_date : Z) :
  times <> [] ->
  scan aware times first_date last_date =
  scan_loop aware first_date last_date 0 times (scan_start times).
Proof.
  intros Hne. unfold scan, scan_start.
  assert (Hlen : 0 < Z.of_nat (List.length times)).
  { destruct times; [congruence | simpl; lia]. }
  rewrite (py_index_inside times 0 0) by lia.
  rewrite (py_index_from_end times (-1) 0) by lia.
  cbn [bind]. unfold time_at.
  replace (-1 + Z.of_nat (List.length times))
    with (Z.of_nat (List.length times) - 1) by lia.
  reflexivity.
Qed.

Lemma scan_empty (aware : bool) (first_date last_date : Z) :
  scan aware [] first_date last_date = Raise IndexError.
Proof. reflexivity. Qed.

Lemma scan_Ok_nonempty (aware : bool) (times : list Z)
    (first_date last_date : Z) (st : scan_state) :
  scan aware times first_date last_date = Ok st -> times <> [].
Proof. intros H ->. discriminate. Qed.

Lemma scan_within_bounds (aware : bool) (times : list Z)
    (first_date last_date : Z) (st : scan_state) :
  scan aware times first_date last_date = Ok st ->
  scan_bounds times first_date last_date st.
Proof.
  intros H.
  pose proof (scan_Ok_nonempty _ _ _ _ _ H) as Hne.
  assert (Hlen : 0 < Z.of_nat (List.length times)).
  { destruct times; [congruence | simpl; lia]. }
  rewrite scan_nonempty in H by exact Hne.
  apply (scan_loop_bounds aware times first_date last_date times 0
           (scan_start times) st); [lia | reflexivity | | exact H].
  unfold scan_bounds, scan_start, valid_index;
    cbn [first_num first_tt last_num last_tt].
  repeat split; try (left; reflexivity); lia.
Qed.

(** With an aware history no ordering raises, and the scan of a history
    that is not empty returns. *)
Lemma scan_loop_aware_returns (first_date last_date : Z) :
  forall rest k st,
    exists st', scan_loop true first_date last_date k rest st = Ok st'.
Proof.
  induction rest as [| t rest IH]; intros k st.
  - now exists st.
  - cbn [scan_loop]. rewrite scan_step_aware. cbn [bind]. apply IH.
Qed.

Lemma scan_aware_returns (times : list Z) (first_date last_date : Z) :
  times <> [] ->
  exists st, scan true times first_date last_date = Ok st.
Proof.
  intros Hne. rewrite scan_nonempty by exact Hne.
  apply scan_loop_aware_returns.
Qed.


Lemma first_exact_keep (times : list Z) (first_date k f : Z) :
  increasing times -> valid_index times k ->
  first_exact times first_date k f ->
  ~ (time_at times k > time_at times f /\ time_at times k < first_date) ->
  first_exact times first_date (k + 1) f.
Proof.
  intros Hinc Hk [[Hf Hnone] | [Hbw [Hlt Hmax]]] Hcond.
  - left. split; [exact Hf |]. intros j Hj Hbwj.
    destruct (Z.eq_dec j k) as [-> | Hne].
    + subst f. destruct Hbwj as [_ [H1 H2]]. apply Hcond. lia.
    + apply (Hnone j); [lia | exact Hbwj].
  - right. split; [exact Hbw |]. split; [lia |]. intros j Hj Hbwj.
    destruct (Z.eq_dec j k) as [-> | Hne].
    + exfalso. apply Hcond. destruct Hbwj as [_ [H1 H2]].
      destruct Hbw as [[Hf0 _] _].
      pose proof (Hinc f k Hf0 Hlt (proj2 Hk)). lia.
    + apply Hmax; [lia | exact Hbwj].
Qed.

Lemma first_exact_move (times : list Z) (first_date k f : Z) :
  valid_index times k ->
  first_exact times first_date k f ->
  time_at times k > time_at times f ->
  time_at times k < first_date ->
  first_exact times first_date (k + 1) k.
Proof.
  intros Hk Hex Hgt Hlt. right. split; [| split; [lia | intros; lia]].
  split; [exact Hk |]. split; [| exact Hlt].
  destruct Hex as [[Hf _] | [[_ [H0 _]] _]]; [subst f |]; lia.
Qed.

Lemma last_exact_keep (times : list Z) (last_date k l : Z) :
  increasing times -> valid_index times k ->
  last_exact times last_date k l ->
  ~ (time_at times k < time_at times l /\ time_at times k > last_date) ->
  last_exact times last_date (k + 1) l.
Proof.
  intros Hinc Hk [[Hl Hnone] | [Haw [Hlt Hmin]]] Hcond.
  - left. split; [exact Hl |]. intros j Hj Hawj.
    destruct (Z.eq_dec j k) as [-> | Hne].
    + subst l. destruct Hawj as [_ [H1 H2]]. apply Hcond. lia.
    + apply (Hnone j); [lia | exact Hawj].
  - right. split; [exact Haw |]. split; [lia |]. intros j Hj Hawj.
    destruct (Z.eq_dec j k) as [-> | Hne]; [lia |].
    apply Hmin; [lia | exact Hawj].
Qed.

Lemma last_exact_move (times : list Z) (last_date k l : Z) :
  increasing times -> valid_index times k ->
  last_exact times last_date k l ->
  time_at times k < time_at times l ->
  time_at times k > last_date ->
  last_exact times last_date (k + 1) k.
Proof.
  intros Hinc Hk Hex Hlt Hgt.
  destruct Hex as [[Hl Hnone] | [[[Hl0 _] _] [Hlk _]]].
  - right. split; [| split; [lia |]].
    + split; [exact Hk |]. subst l. split; [exact Hlt | exact Hgt].
    + intros j Hj Hawj. destruct (Z.eq_dec j k) as [-> | Hne]; [lia |].
      exfalso. apply (Hnone j); [lia | exact Hawj].
  - pose proof (Hinc l k Hl0 Hlk (proj2 Hk)). lia.
Qed.

Lemma scan_step_exact (times : list Z) (first_date last_date : Z)
    (st : scan_state) (k : Z) :
  increasing times -> valid_index times k ->
  scan_exact times first_date last_date k st ->
  scan_exact times first_date last_date (k + 1)
    (scan_step_defined first_date last_date st k (time_at times k)).
Proof.
  intros Hinc Hk [Hft [Hlt [HF HL]]].
  unfold scan_step_defined, scan_exact.
  destruct (Z.gtb_spec (time_at times k) (first_tt st)) as [G1 | G1];
    destruct (Z.ltb_spec (time_at times k) first_date) as [L1 | L1];
    cbn [andb first_num first_tt last_num last_tt];
    destruct (Z.ltb_spec (time_at times k) (last_tt st)) as [L2 | L2];
    destruct (Z.gtb_spec (time_at times k) last_date) as [G2 | G2];
    cbn [andb first_num first_tt last_num last_tt];
    rewrite ?Hft, ?Hlt in *;
    (split; [auto | split; [auto | split]]);
    first [ apply (first_exact_move times first_date k (first_num st));
            solve [auto | lia]
          | apply first_exact_keep; solve [auto | lia]
          | apply (last_exact_move times last_date k (last_num st));
            solve [auto | lia]
          | apply last_exact_keep; solve [auto | lia] ].
Qed.

Lemma scan_loop_exact (aware : bool) (times : list Z)
    (first_date last_date : Z) :
  increasing times ->
  forall rest k st st',
    0 <= k ->
    skipn (Z.to_nat k) times = rest ->
    scan_exact times first_date last_date k st ->
    scan_loop aware first_date last_date k rest st = Ok st' ->
    scan_exact times first_date last_date (Z.of_nat (List.length times)) st'.
Proof.
  intros Hinc.
  induction rest as [| t rest IH]; intros k st st' Hk Hskip Hst Hloop.
  - injection Hloop as <-.
    assert (Hlen : Z.of_nat (List.length times) <= k).
    { pose proof (length_skipn (Z.to_nat k) times) as Hl.
      rewrite Hskip in Hl. simpl in Hl. lia. }
    destruct Hst as [Hft [Hlt [HF HL]]].
    split; [exact Hft | split; [exact Hlt | split]].
    + destruct HF as [[Hf Hnone] | [Hbw [Hfk Hmax]]].
      * left. split; [exact Hf |]. intros j Hj. apply Hnone. lia.
      * right. split; [exact Hbw |]. split; [apply Hbw |].
        intros j Hj. apply Hmax. lia.
    + destruct HL as [[Hl Hnone] | [Haw [Hlk Hmin]]].
      * left. split; [exact Hl |]. intros j Hj. apply Hnone. lia.
      * right. split; [exact Haw |]. split; [apply Haw |].
        intros j Hj. apply Hmin. lia.
  - destruct (skipn_cons_nth _ _ _ 0 _ Hskip) as [Hnth [Hrest Hlen]].
    cbn [scan_loop] in Hloop.
    destruct (scan_step aware first_date last_date st k t)
      as [st1 | e] eqn:Hstep; cbn [bind] in Hloop; [| discriminate].
    apply scan_step_Ok in Hstep. subst st1.
    refine (IH (k + 1) _ st' _ _ _ Hloop); [lia | |].
    + replace (Z.to_nat (k + 1)) with (S (Z.to_nat k)) by lia. exact Hrest.
    + replace t with (time_at times k) by exact Hnth.
      apply scan_step_exact; [exact Hinc | | exact Hst].
      unfold valid_index. lia.
Qed.

Lemma scan_exact_final (aware : bool) (times : list Z)
    (first_date last_date : Z) (st : scan_state) :
  increasing times ->
  scan aware times first_date last_date = Ok st ->
  latest_before_window times first_date (first_num st) /\
  earliest_after_window times last_date (last_num st).
Proof.
  intros Hinc H.
  pose proof (scan_Ok_nonempty _ _ _ _ _ H) as Hne.
  rewrite scan_nonempty in H by exact Hne.
  assert (Hstart : scan_exact times first_date last_date 0
                     (scan_start times)).
  { unfold scan_start.
    split; [reflexivity | split; [reflexivity | split]]; left;
      (split; [reflexivity |]); intros j Hj [[Hj0 _] _]; lia. }
  destruct (scan_loop_exact aware times first_date last_date Hinc times 0
              (scan_start times) st (Z.le_refl 0) eq_refl Hstart H)
    as [_ [_ [HF HL]]].
  split.
  - destruct HF as [[Hf Hnone] | [Hbw [_ Hmax]]].
    + right. split; [exact Hf |]. intros j Hbw.
      apply (Hnone j); [apply Hbw | exact Hbw].
    + left. split; [exact Hbw |]. intros j Hbw'.
      apply Hmax; [apply Hbw' | exact Hbw'].
  - destruct HL as [[Hl Hnone] | [Haw [_ Hmin]]].
    + right. split; [exact Hl |]. intros j Haw.
      apply (Hnone j); [apply Haw | exact Haw].
    + left. split; [exact Haw |]. intros j Haw'.
      apply Hmin; [apply Haw' | exact Haw'].
Qed.


(** ** Names in first-seen order *)

Lemma existsb_eqb_In (x : string) (l : list string) :
  existsb (String.eqb x) l = true <-> In x l.
Proof.
  rewrite existsb_exists. split.
  - intros [y [Hy Heq]]. apply String.eqb_eq in Heq. now subst y.
  - intros H. exists x. split; [exact H | apply String.eqb_refl].
Qed.

Lemma first_seen_snoc (l : list string) (x : string) :
  first_seen (l ++ [x]) =
  if existsb (String.eqb x) (first_seen l) then first_seen l
  else first_seen l ++ [x].
Proof. unfold first_seen. rewrite fold_left_app. reflexivity. Qed.

Lemma first_seen_In (l : list string) (x : string) :
  In x (first_seen l) <-> In x l.
Proof.
  induction l as [| y l IH] using rev_ind.
  - reflexivity.
  - rewrite first_seen_snoc, in_app_iff.
    destruct (existsb (String.eqb y) (first_seen l)) eqn:E.
    + apply existsb_eqb_In in E. rewrite IH. simpl. split; [tauto |].
      intros [H | [<- | []]]; [exact H | now apply IH].
    + rewrite in_app_iff, IH. reflexivity.
Qed.

Lemma first_seen_NoDup (l : list string) : NoDup (first_seen l).
Proof.
  induction l as [| y l IH] using rev_ind.
  - constructor.
  - rewrite first_seen_snoc.
    destruct (existsb (String.eqb y) (first_seen l)) eqn:E; [exact IH |].
    apply NoDup_app; [exact IH | repeat constructor; simpl; tauto |].
    intros x Hx [<- | []].
    apply existsb_eqb_In in Hx. congruence.
Qed.

Lemma first_seen_count (l : list string) :
  List.length (first_seen l) = List.length (nodup string_dec l).
Proof.
  apply Permutation_length, NoDup_Permutation.
  - apply first_seen_NoDup.
  - apply NoDup_nodup.
  - intros x. rewrite first_seen_In, nodup_In. reflexivity.
Qed.

(** ** The dictionary *)

Lemma dict_get_set (q name : string) (v : Subcomponent) (d : dict) :
  dict_get q (dict_set name v d) =
  if String.eqb name q then Some v else dict_get q d.
Proof.
  induction d as [| [k x] d IH]; simpl.
  - reflexivity.
  - destruct (String.eqb k name) eqn:Ekn; simpl.
    + apply String.eqb_eq in Ekn. subst k.
      now destruct (String.eqb name q).
    + rewrite IH. destruct (String.eqb k q) eqn:Ekq; [| reflexivity].
      apply String.eqb_eq in Ekq. subst k.
      now rewrite String.eqb_sym, Ekn.
Qed.

Lemma dict_get_None (q : string) (d : dict) :
  dict_get q d = None <-> ~ In q (map fst d).
Proof.
  induction d as [| [k x] d IH]; simpl.
  - tauto.
  - destruct (String.eqb k q) eqn:E.
    + apply String.eqb_eq in E. split; [discriminate | tauto].
    + apply String.eqb_neq in E. rewrite IH. tauto.
Qed.

Lemma dict_get_In (q : string) (v : Subcomponent) (d : dict) :
  dict_get q d = Some v -> In (q, v) d.
Proof.
  induction d as [| [k x] d IH]; simpl; [discriminate |].
  destruct (String.eqb k q) eqn:E.
  - apply String.eqb_eq in E. intros [= ->]. left. now subst.
  - intros H. right. now apply IH.
Qed.

Lemma dict_In_get (q : string) (v : Subcomponent) (d : dict) :
  NoDup (map fst d) -> In (q, v) d -> dict_get q d = Some v.
Proof.
  induction d as [| [k x] d IH]; simpl; [tauto |].
  intros Hnd [Heq | Hin].
  - injection Heq as -> ->. now rewrite String.eqb_refl.
  - inversion Hnd as [| ? ? Hk Hnd']; subst.
    destruct (String.eqb k q) eqn:E.
    + apply String.eqb_eq in E. subst k. exfalso. apply Hk.
      change q with (fst (q, v)). now apply in_map.
    + now apply IH.
Qed.

Lemma dict_set_present_keys (name : string) (v x : Subcomponent) (d : dict) :
  dict_get name d = Some x -> map fst (dict_set name v d) = map fst d.
Proof.
  induction d as [| [k y] d IH]; simpl; [discriminate |].
  destruct (String.eqb k name) eqn:E; simpl; [reflexivity |].
  intros H. now rewrite IH.
Qed.

Lemma dict_set_absent (name : string) (v : Subcomponent) (d : dict) :
  dict_get name d = None -> dict_set name v d = d ++ [(name, v)].
Proof.
  induction d as [| [k y] d IH]; simpl; [reflexivity |].
  destruct (String.eqb k name) eqn:E; [discriminate |].
  intros H. now rewrite IH.
Qed.

Lemma rendered_app (a b : list Subcomponent) :
  rendered (a ++ b) = rendered a ++ rendered b.
Proof. unfold rendered. apply flat_map_app. Qed.

Lemma rendered_sub_add_RDATE (sub : Subcomponent) (t : Z) :
  rendered_sub (add_RDATE sub t) = rendered_sub sub ++ [(TZNAME sub, t)].
Proof.
  unfold rendered_sub, add_RDATE, RDATE_values. cbn [TZNAME DTSTART RDATE].
  destruct (RDATE sub) as [dts |]; simpl.
  - now rewrite map_app.
  - reflexivity.
Qed.

Lemma rendered_dict_cons (k : string) (x : Subcomponent) (d : dict) :
  rendered (dict_values ((k, x) :: d)) =
  rendered_sub x ++ rendered (dict_values d).
Proof. reflexivity. Qed.

Lemma rendered_dict_set_RDATE (name : string) (sub : Subcomponent) (t : Z)
    (d : dict) :
  dict_get name d = Some sub ->
  Permutation
    (rendered (dict_values (dict_set name (add_RDATE sub t) d)))
    ((TZNAME sub, t) :: rendered (dict_values d)).
Proof.
  induction d as [| [k x] d IH]; cbn [dict_get dict_set]; [discriminate |].
  destruct (String.eqb k name) eqn:E.
  - intros [= ->]. rewrite !rendered_dict_cons.
    rewrite rendered_sub_add_RDATE, <- app_assoc.
    apply Permutation_sym.
    apply (Permutation_middle (rendered_sub sub) (rendered (dict_values d))
             (TZNAME sub, t)).
  - intros H. rewrite !rendered_dict_cons.
    transitivity (rendered_sub x ++ (TZNAME sub, t) :: rendered (dict_values d)).
    + apply Permutation_app_head, (IH H).
    + apply Permutation_sym, Permutation_middle.
Qed.

(** ** The grouping loop *)

Section Grouping.

Variable tz : tzobject.
Variable times : list Z.
Hypothesis info_per_instant :
  List.length (transition_info tz) = List.length times.

Lemma info_index (num : Z) :
  valid_index times num ->
  py_index (transition_info tz) num = Ok (entry_at tz num).
Proof.
  intros Hv. apply py_index_inside. unfold valid_index in Hv. lia.
Qed.

Lemma times_index (num : Z) :
  valid_index times num -> py_index times num = Ok (time_at times num).
Proof. intros Hv. now apply py_index_inside. Qed.

Lemma previous_index_positive (num : Z) :
  valid_index times num -> 0 < num ->
  py_index (transition_info tz) (num - 1) = Ok (entry_at tz (num - 1)).
Proof.
  intros Hv Hpos. apply py_index_inside. unfold valid_index in Hv. lia.
Qed.

Lemma previous_index_zero :
  valid_index times 0 ->
  py_index (transition_info tz) (0 - 1) =
  Ok (entry_at tz (Z.of_nat (List.length times) - 1)).
Proof.
  intros Hv. unfold valid_index in Hv.
  rewrite (py_index_from_end _ _ default_entry) by lia.
  unfold entry_at. do 3 f_equal. lia.
Qed.

Lemma previous_index_total (num : Z) :
  valid_index times num ->
  exists previous, py_index (transition_info tz) (num - 1) = Ok previous.
Proof.
  intros Hv. destruct (Z.eq_dec num 0) as [-> | Hne].
  - eexists. now apply previous_index_zero.
  - eexists. apply previous_index_positive; [exact Hv |].
    unfold valid_index in Hv. lia.
Qed.

Lemma occurrences_snoc (key : string) (nums : list Z) (num : Z) :
  occurrences tz key (nums ++ [num]) =
  occurrences tz key nums ++
  (if String.eqb (name_at tz num) key then [num] else []).
Proof. unfold occurrences. rewrite filter_app. reflexivity. Qed.

Lemma occurrences_absent (key : string) (nums : list Z) :
  ~ In key (map (name_at tz) nums) -> occurrences tz key nums = [].
Proof.
  induction nums as [| num nums IH]; simpl; [reflexivity |].
  intros H. destruct (String.eqb (name_at tz num) key) eqn:E.
  - apply String.eqb_eq in E. tauto.
  - apply IH. tauto.
Qed.

Lemma group_loop_snoc (nums : list Z) (num : Z) (d : dict) :
  group_loop tz times (nums ++ [num]) d =
  (do d' <- group_loop tz times nums d ;; group_step tz times d' num).
Proof.
  revert d. induction nums as [| n nums IH]; intros d; simpl.
  - now destruct (group_step tz times d num).
  - destruct (group_step tz times d n) as [d1 | e]; simpl; [apply IH |].
    reflexivity.
Qed.

Lemma RDATE_of_snoc (later : list Z) (t : Z) :
  match RDATE_of later with
  | Some dts => Some (dts ++ [t])
  | None => Some [t]
  end = RDATE_of (later ++ [t]).
Proof. now destruct later. Qed.

Lemma group_step_invariant (nums : list Z) (num : Z) (d d' : dict) :
  valid_index times num ->
  group_invariant tz times nums d ->
  group_step tz times d num = Ok d' ->
  group_invariant tz times (nums ++ [num]) d'.
Proof.
  intros Hv [Hkeys [Hmade Hperm]] Hstep.
  unfold group_step in Hstep.
  rewrite (info_index num Hv), (times_index num Hv) in Hstep.
  cbn [bind] in Hstep.
  fold (name_at tz num) in Hstep.
  destruct (fromutc tz (time_at times num)) as [ttime | e] eqn:Hfu;
    [| destruct (dict_get (name_at tz num) d); discriminate].
  assert (Hls : local_start tz times num = ttime)
    by (unfold local_start; now rewrite Hfu).
  cbn [bind] in Hstep. rewrite <- Hls in Hstep. clear Hls.
  assert (Hother : forall key sub',
             String.eqb (name_at tz num) key = false ->
             dict_get key d = Some sub' ->
             made_from tz times (nums ++ [num]) key sub').
  { intros key sub' E Hg.
    destruct (Hmade _ _ Hg) as (first & later & Hocc & Hrest).
    exists first, later. split; [| exact Hrest].
    now rewrite occurrences_snoc, E, app_nil_r. }
  destruct (dict_get (name_at tz num) d) as [sub |] eqn:Hget.
  - injection Hstep as <-.
    destruct (Hmade _ _ Hget)
      as (first & later & Hocc & Hn & Hc & Hd & Hto & Hfrom & Hr).
    assert (Hin : In (name_at tz num) (first_seen (map (name_at tz) nums))).
    { rewrite <- Hkeys.
      destruct (in_dec string_dec (name_at tz num) (map fst d)) as [H | H];
        [exact H |].
      apply dict_get_None in H. congruence. }
    split; [| split].
    + rewrite (dict_set_present_keys _ _ sub) by exact Hget.
      rewrite Hkeys, map_app. cbn [map]. rewrite first_seen_snoc.
      apply existsb_eqb_In in Hin. now rewrite Hin.
    + intros key sub' Hg. rewrite dict_get_set in Hg.
      destruct (String.eqb (name_at tz num) key) eqn:E;
        [| now apply (Hother key sub')].
      apply String.eqb_eq in E. subst key. injection Hg as <-.
      exists first, (later ++ [num]).
      rewrite occurrences_snoc, String.eqb_refl, Hocc.
      split; [reflexivity |].
      cbn [add_RDATE component TZNAME DTSTART TZOFFSETTO TZOFFSETFROM RDATE].
      repeat (split; [assumption |]).
      rewrite Hr, map_app. apply RDATE_of_snoc.
    + rewrite (rendered_dict_set_RDATE _ _ _ _ Hget), map_app, Hn.
      cbn [map]. fold (transition_row tz times num).
      etransitivity; [apply perm_skip, Hperm | apply Permutation_cons_append].
  - assert (Hout : ~ In (name_at tz num) (map (name_at tz) nums)).
    { rewrite <- first_seen_In, <- Hkeys. now apply dict_get_None. }
    destruct (previous_index_total num Hv) as [previous Hprev].
    rewrite Hprev in Hstep. cbn [bind] in Hstep.
    destruct (info_utcoffset (entry_at tz num)) as [| | | | offsetto] eqn:Hto;
      try discriminate.
    destruct (info_utcoffset previous) as [| | | | offsetfrom] eqn:Hfrom;
      try discriminate.
    injection Hstep as <-.
    split; [| split].
    + rewrite (dict_set_absent _ _ _ Hget), !map_app. cbn [map fst].
      rewrite first_seen_snoc, Hkeys.
      destruct (existsb (String.eqb (name_at tz num))
                  (first_seen (map (name_at tz) nums))) eqn:E;
        [| reflexivity].
      apply existsb_eqb_In in E. rewrite first_seen_In in E. contradiction.
    + intros key sub' Hg. rewrite dict_get_set in Hg.
      destruct (String.eqb (name_at tz num) key) eqn:E;
        [| now apply (Hother key sub')].
      apply String.eqb_eq in E. subst key. injection Hg as <-.
      exists num, [].
      rewrite occurrences_snoc, String.eqb_refl, occurrences_absent
        by exact Hout.
      cbn [component TZNAME DTSTART TZOFFSETTO TZOFFSETFROM RDATE].
      repeat split; try reflexivity; try assumption.
      exists previous. split; assumption.
    + rewrite (dict_set_absent _ _ _ Hget). unfold dict_values.
      rewrite !map_app, rendered_app. cbn [map snd].
      apply Permutation_app; [exact Hperm |]. apply Permutation_refl.
Qed.

Lemma group_loop_invariant (nums : list Z) :
  (forall num, In num nums -> valid_index times num) ->
  forall d, group_loop tz times nums [] = Ok d ->
            group_invariant tz times nums d.
Proof.
  induction nums as [| num nums IH] using rev_ind; intros Hv d H.
  - injection H as <-. split; [reflexivity | split].
    + intros key sub Hg. discriminate.
    + apply Permutation_refl.
  - rewrite group_loop_snoc in H.
    destruct (group_loop tz times nums []) as [d0 | e] eqn:Hloop;
      [| discriminate].
    cbn [bind] in H.
    apply (group_step_invariant nums num d0 d).
    + apply Hv, in_or_app. right. now left.
    + apply IH; [| reflexivity]. intros n Hn. apply Hv, in_or_app. now left.
    + exact H.
Qed.

Lemma first_occurrence_snoc_old (nums : list Z) (x num : Z) :
  first_occurrence tz nums num -> first_occurrence tz (nums ++ [x]) num.
Proof.
  intros (pre & post & -> & Hnew).
  exists pre, (post ++ [x]). split; [| exact Hnew].
  now rewrite <- app_assoc.
Qed.

Lemma first_occurrence_snoc_new (nums : list Z) (x : Z) :
  ~ In (name_at tz x) (map (name_at tz) nums) ->
  first_occurrence tz (nums ++ [x]) x.
Proof. intros H. exists nums, []. now split. Qed.

Lemma first_occurrence_snoc_inv (nums : list Z) (x num : Z) :
  first_occurrence tz (nums ++ [x]) num ->
  first_occurrence tz nums num \/
  (num = x /\ ~ In (name_at tz x) (map (name_at tz) nums)).
Proof.
  intros (pre & post & Heq & Hnew).
  destruct post as [| y post] using rev_ind.
  - apply app_inj_tail in Heq. destruct Heq as [-> ->]. right. now split.
  - clear IHpost. left.
    change (pre ++ num :: post ++ [y]) with (pre ++ (num :: post) ++ [y])
      in Heq.
    rewrite app_assoc in Heq. apply app_inj_tail in Heq.
    destruct Heq as [-> _]. now exists pre, post.
Qed.

Lemma group_step_outcome (nums : list Z) (num : Z) (d : dict) :
  valid_index times num ->
  (exists ttime, fromutc tz (time_at times num) = Ok ttime) ->
  group_invariant tz times nums d ->
  (In (name_at tz num) (map (name_at tz) nums) \/
   offsets_are_timedelta tz num = true ->
   exists d', group_step tz times d num = Ok d') /\
  (~ In (name_at tz num) (map (name_at tz) nums) ->
   offsets_are_timedelta tz num = false ->
   group_step tz times d num = Raise (ValueError TZOFFSET_message)).
Proof.
  intros Hv [ttime Hfu] [Hkeys _].
  unfold group_step, offsets_are_timedelta, offset_at.
  rewrite (info_index num Hv), (times_index num Hv). cbn [bind].
  rewrite Hfu. cbn [bind].
  fold (name_at tz num).
  destruct (previous_index_total num Hv) as [previous Hprev].
  rewrite Hprev. cbn [bind].
  destruct (dict_get (name_at tz num) d) as [sub |] eqn:Hget.
  - split; [intros _; eexists; reflexivity |].
    intros Hout _. exfalso. apply Hout.
    rewrite <- first_seen_In, <- Hkeys.
    destruct (in_dec string_dec (name_at tz num) (map fst d)) as [H | H];
      [exact H |].
    apply dict_get_None in H. congruence.
  - assert (Hout : ~ In (name_at tz num) (map (name_at tz) nums)).
    { rewrite <- first_seen_In, <- Hkeys. now apply dict_get_None. }
    destruct (info_utcoffset (entry_at tz num));
      destruct (info_utcoffset previous); cbn [is_timedelta andb];
      (split; [intros [Hin | Hok];
               [contradiction | try discriminate; eexists; reflexivity]
              | intros _ Hbad; try discriminate; reflexivity]).
Qed.

Lemma group_loop_outcome (nums : list Z) :
  (forall num, In num nums -> valid_index times num) ->
  (forall num, In num nums ->
               exists ttime, fromutc tz (time_at times num) = Ok ttime) ->
  (exists d,
      group_loop tz times nums [] = Ok d /\
      forall num, first_occurrence tz nums num ->
                  offsets_are_timedelta tz num = true) \/
  (group_loop tz times nums [] = Raise (ValueError TZOFFSET_message) /\
   exists num, first_occurrence tz nums num /\
               offsets_are_timedelta tz num = false).
Proof.
  induction nums as [| x nums IH] using rev_ind; intros Hv Hfu.
  - left. exists []. split; [reflexivity |].
    intros num (pre & post & Heq & _). now destruct pre.
  - assert (Hvx : valid_index times x).
    { apply Hv, in_or_app. right. now left. }
    assert (Hv' : forall n, In n nums -> valid_index times n).
    { intros n Hn. apply Hv, in_or_app. now left. }
    assert (Hfux : exists ttime, fromutc tz (time_at times x) = Ok ttime).
    { apply Hfu, in_or_app. right. now left. }
    assert (Hfu' : forall n, In n nums ->
                     exists ttime, fromutc tz (time_at times n) = Ok ttime).
    { intros n Hn. apply Hfu, in_or_app. now left. }
    rewrite group_loop_snoc.
    destruct (IH Hv' Hfu')
      as [[d [Hloop Hgood]] | [Hloop [bad [Hfirst Hbad]]]].
    + rewrite Hloop. cbn [bind].
      pose proof (group_loop_invariant nums Hv' d Hloop) as Hinv.
      destruct (group_step_outcome nums x d Hvx Hfux Hinv) as [Hok Hraise].
      destruct (in_dec string_dec (name_at tz x) (map (name_at tz) nums))
        as [Hin | Hout].
      * left. destruct Hok as [d' Hd']; [now left |].
        exists d'. split; [exact Hd' |].
        intros num Hnum.
        apply first_occurrence_snoc_inv in Hnum.
        destruct Hnum as [Hold | [_ Hnew]]; [now apply Hgood | contradiction].
      * destruct (offsets_are_timedelta tz x) eqn:Hoff.
        -- left. destruct Hok as [d' Hd']; [now right |].
           exists d'. split; [exact Hd' |].
           intros num Hnum.
           apply first_occurrence_snoc_inv in Hnum.
           destruct Hnum as [Hold | [-> _]]; [now apply Hgood | exact Hoff].
        -- right. split; [now apply Hraise |].
           exists x. split; [now apply first_occurrence_snoc_new | exact Hoff].
    + right. rewrite Hloop. split; [reflexivity |].
      exists bad. split; [now apply first_occurrence_snoc_old | exact Hbad].
Qed.

End Grouping.

(** ** [create_timezone] on a zone with a history *)

Lemma create_timezone_not_tzinfo (now_first now_last : Z) (tz : tzobject)
    (first_date last_date : option Z) :
  is_tzinfo tz = false ->
  create_timezone now_first now_last tz first_date last_date
    = Raise TypeError.
Proof.
  intros H. unfold create_timezone, in_zone. rewrite H. reflexivity.
Qed.

Lemma create_timezone_Ok_tzinfo (now_first now_last : Z) (tz : tzobject)
    (first_date last_date : option Z) (tree : Timezone) :
  create_timezone now_first now_last tz first_date last_date = Ok tree ->
  is_tzinfo tz = true.
Proof.
  intros H. destruct (is_tzinfo tz) eqn:Htz; [reflexivity |].
  rewrite (create_timezone_not_tzinfo _ _ _ _ _ Htz) in H. discriminate.
Qed.

Lemma create_timezone_dynamic (now_first now_last : Z) (tz : tzobject)
    (times : list Z) (first_date last_date : option Z) :
  is_tzinfo tz = true ->
  utc_transition_times tz = Some times ->
  create_timezone now_first now_last tz first_date last_date =
  (do st <- scan (aware_history tz) times
              (or_now now_first first_date) (or_now now_last last_date) ;;
   do timezones <- group_loop tz times
                     (py_range (first_num st) (last_num st + 1)) [] ;;
   Ok {| TZID := str tz; subcomponents := dict_values timezones |}).
Proof.
  intros Htz H. unfold create_timezone, in_zone. rewrite Htz, H.
  reflexivity.
Qed.

Lemma selected_valid (aware : bool) (times : list Z)
    (first_date last_date : Z) (st : scan_state) :
  scan aware times first_date last_date = Ok st ->
  forall num, In num (py_range (first_num st) (last_num st + 1)) ->
              valid_index times num.
Proof.
  intros H num Hin. apply py_range_In in Hin.
  destruct (scan_within_bounds _ _ _ _ _ H) as [Hf [Hl _]].
  unfold valid_index in *. lia.
Qed.

(** A returned tree is the work of a scan and of a grouping loop that
    both returned. *)
Lemma create_timezone_Ok (now_first now_last : Z) (tz : tzobject)
    (times : list Z) (first_date last_date : option Z) (tree : Timezone) :
  utc_transition_times tz = Some times ->
  create_timezone now_first now_last tz first_date last_date = Ok tree ->
  exists st d,
    scan (aware_history tz) times
      (or_now now_first first_date) (or_now now_last last_date) = Ok st /\
    group_loop tz times (py_range (first_num st) (last_num st + 1)) []
      = Ok d /\
    tree = {| TZID := str tz; subcomponents := dict_values d |}.
Proof.
  intros Hattr Hbuild.
  pose proof (create_timezone_Ok_tzinfo _ _ _ _ _ _ Hbuild) as Htz.
  rewrite (create_timezone_dynamic _ _ _ _ _ _ Htz Hattr) in Hbuild.
  destruct (scan (aware_history tz) times (or_now now_first first_date)
              (or_now now_last last_date)) as [st | e] eqn:Hscan;
    cbn [bind] in Hbuild; [| discriminate].
  destruct (group_loop tz times
              (py_range (first_num st) (last_num st + 1)) [])
    as [d | e] eqn:Hloop; cbn [bind] in Hbuild; [| discriminate].
  injection Hbuild as <-. now exists st, d.
Qed.

Lemma create_timezone_tree (now_first now_last : Z) (tz : tzobject)
    (times : list Z) (first_date last_date : option Z) (st : scan_state)
    (tree : Timezone) :
  dynamic_zone tz times ->
  scan (aware_history tz) times
    (or_now now_first first_date) (or_now now_last last_date) = Ok st ->
  create_timezone now_first now_last tz first_date last_date = Ok tree ->
  exists d,
    subcomponents tree = dict_values d /\
    group_loop tz times (py_range (first_num st) (last_num st + 1)) []
      = Ok d /\
    group_invariant tz times (py_range (first_num st) (last_num st + 1)) d.
Proof.
  intros [Hattr [_ Hlen]] Hscan Hbuild.
  destruct (create_timezone_Ok _ _ _ _ _ _ _ Hattr Hbuild)
    as (st' & d & Hscan' & Hloop & ->).
  rewrite Hscan in Hscan'. injection Hscan' as <-.
  exists d. split; [reflexivity |]. split; [exact Hloop |].
  apply group_loop_invariant; [exact Hlen | | exact Hloop].
  exact (selected_valid _ _ _ _ _ Hscan).
Qed.

Lemma first_occurrence_In (tz : tzobject) (nums : list Z) (num : Z) :
  first_occurrence tz nums num -> In num nums.
Proof.
  intros (pre & post & -> & _). apply in_or_app. right. now left.
Qed.

Lemma first_occurrence_occurrences (tz : tzobject) (nums : list Z)
    (num : Z) :
  first_occurrence tz nums num ->
  exists later, occurrences tz (name_at tz num) nums = num :: later.
Proof.
  intros (pre & post & -> & Hnew).
  exists (occurrences tz (name_at tz num) post).
  unfold occurrences at 1. rewrite filter_app.
  fold (occurrences tz (name_at tz num) pre).
  rewrite (occurrences_absent tz _ _ Hnew). cbn [app filter].
  now rewrite String.eqb_refl.
Qed.

(** The sub-component a first occurrence makes is in the returned tree. *)
Lemma first_occurrence_subcomponent (now_first now_last : Z)
    (tz : tzobject) (times : list Z) (first_date last_date : option Z)
    (st : scan_state) (tree : Timezone) (num : Z) :
  dynamic_zone tz times ->
  scan (aware_history tz) times
    (or_now now_first first_date) (or_now now_last last_date) = Ok st ->
  create_timezone now_first now_last tz first_date last_date = Ok tree ->
  first_occurrence tz (py_range (first_num st) (last_num st + 1)) num ->
  exists sub,
    In sub (subcomponents tree) /\
    made_from tz times (py_range (first_num st) (last_num st + 1))
      (name_at tz num) sub /\
    DTSTART sub = local_start tz times num /\
    offset_at tz num = PyTimedelta (TZOFFSETTO sub) /\
    exists previous,
      py_index (transition_info tz) (num - 1) = Ok previous /\
      info_utcoffset previous = PyTimedelta (TZOFFSETFROM sub).
Proof.
  intros Hdyn Hscan Hbuild Hfirst.
  destruct (create_timezone_tree _ _ _ _ _ _ _ _ Hdyn Hscan Hbuild)
    as [d [Hsubs [_ [Hkeys [Hmade _]]]]].
  set (nums := py_range (first_num st) (last_num st + 1)) in *.
  assert (Hin : In (name_at tz num) (map fst d)).
  { rewrite Hkeys, first_seen_In. apply in_map.
    now apply (first_occurrence_In tz). }
  destruct (dict_get (name_at tz num) d) as [sub |] eqn:Hget.
  - exists sub. pose proof (Hmade _ _ Hget) as Hsub.
    split.
    + rewrite Hsubs. apply dict_get_In in Hget.
      change sub with (snd (name_at tz num, sub)). now apply in_map.
    + split; [exact Hsub |].
      destruct Hsub as (first & later & Hocc & _ & _ & Hd & Hto & Hfrom & _).
      destruct (first_occurrence_occurrences _ _ _ Hfirst) as [later' Hocc'].
      rewrite Hocc' in Hocc. injection Hocc as <- _.
      repeat split; assumption.
  - apply dict_get_None in Hget. contradiction.
Qed.

(** * The properties of the specification *)

(** ** The UTC normaliser *)

Lemma to_naive_utc_result_naive (dtime v : pydt) :
  to_naive_utc dtime = Ok v -> carries_no_zone v.
Proof.
  unfold to_naive_utc, carries_no_zone.
  destruct dtime as [o | wall [tz |] | t [tz |]]; cbn.
  - intros [= <-]. now left.
  - unfold datetime_sub.
    destruct (in_datetime_range (wall - tzinfo_utcoffset tz wall));
      cbn; [| discriminate].
    intros [= <-]. now right.
  - intros [= <-]. now right.
  - discriminate.
  - intros [= <-]. now right.
Qed.

Lemma to_naive_utc_identity (dtime : pydt) :
  carries_no_zone dtime -> to_naive_utc dtime = Ok dtime.
Proof.
  unfold carries_no_zone, to_naive_utc.
  destruct dtime as [o | wall [tz |] | t [tz |]]; cbn; intros [H | H];
    try discriminate; reflexivity.
Qed.






(** C10.  [to_naive_utc] is idempotent: normalising the result of a
    normalisation changes nothing, and an input on which the first call
    raises raises the same way. *)
Theorem C10_to_naive_utc_idempotent :
  forall dtime : pydt,
    (do v <- to_naive_utc dtime ;; to_naive_utc v) = to_naive_utc dtime.
Proof.
  intros dtime. destruct (to_naive_utc dtime) as [v | e] eqn:H; cbn [bind].
  - apply to_naive_utc_identity. exact (to_naive_utc_result_naive _ _ H).
  - reflexivity.
Qed.

(** ** The static path *)

(** What lines 57-67 return for any zone without a history, whatever the
    window: one STANDARD sub-component, and both offsets [timedelta(0)],
    because line 61 overwrites the offset read on line 59. *)
Lemma create_timezone_static (now_first now_last : Z) (tz : tzobject)
    (first_date last_date : option Z) :
  static_zone tz ->
  let tzname := match zone tz with Some z => z | None => str tz end in
  create_timezone now_first now_last tz first_date last_date =
  Ok {| TZID := tzname;
        subcomponents :=
          [ {| component := STANDARD;
               TZNAME := tzname;
               DTSTART := naive_datetime 1601 1 1;
               TZOFFSETTO := 0;
               TZOFFSETFROM := 0;
               RDATE := None |} ] |}.
Proof.
  intros [Htz Hattr] tzname. unfold create_timezone.
  rewrite Htz, Hattr. reflexivity.
Qed.

(** The builder of lines 148-170 keeps the offset of the zone, and
    refuses one that is not a timedelta. *)
Lemma _create_timezone_static_offset (tz : tzobject) (offset : Z) :
  utcoffset_None tz = PyTimedelta offset ->
  exists sub,
    _create_timezone_static tz
      = Ok {| TZID := str tz; subcomponents := [sub] |} /\
    TZOFFSETTO sub = offset /\ TZOFFSETFROM sub = offset.
Proof.
  intros H. unfold _create_timezone_static. rewrite H.
  eexists. split; [reflexivity |]. split; reflexivity.
Qed.

Lemma _create_timezone_static_refuses (tz : tzobject) :
  is_timedelta (utcoffset_None tz) = false ->
  exists msg, _create_timezone_static tz = Raise (ValueError msg).
Proof.
  intros H. unfold _create_timezone_static.
  destruct (utcoffset_None tz); try discriminate; eexists; reflexivity.
Qed.

(** C1, on the zone [Etc/GMT-1].  For every window the tree has exactly
    one STANDARD sub-component, named after the zone and starting at
    [datetime(1601, 1, 1)], as the claim says; but its TZOFFSETTO and
    TZOFFSETFROM are [timedelta(0)], not the hour the zone is ahead of
    UTC. *)
Theorem C1_static_zone_offsets_are_zero :
  forall (now_first now_last : Z) (first_date last_date : option Z),
    static_zone Etc_GMT_minus_1 /\
    utcoffset_None Etc_GMT_minus_1 = PyTimedelta (hours 1) /\
    exists sub,
      create_timezone now_first now_last Etc_GMT_minus_1
        first_date last_date
        = Ok {| TZID := "Etc/GMT-1"; subcomponents := [sub] |} /\
      component sub = STANDARD /\
      TZNAME sub = "Etc/GMT-1"%string /\
      DTSTART sub = naive_datetime 1601 1 1 /\
      RDATE sub = None /\
      TZOFFSETTO sub = 0 /\
      TZOFFSETFROM sub = 0 /\
      PyTimedelta (TZOFFSETTO sub) <> utcoffset_None Etc_GMT_minus_1.
Proof.
  intros now_first now_last first_date last_date.
  split; [split; reflexivity |]. split; [reflexivity |].
  eexists. split.
  - apply (create_timezone_static now_first now_last Etc_GMT_minus_1).
    split; reflexivity.
  - cbn [component TZNAME DTSTART RDATE TZOFFSETTO TZOFFSETFROM].
    repeat split. discriminate.
Qed.

(** The static path never tests the offset: a zone whose offset is a
    plain number is answered with [timedelta(0)] in its place. *)
Lemma static_plain_number_not_refused :
  is_timedelta (utcoffset_None static_plain_number) = false /\
  exists tree,
    create_timezone 0 0 static_plain_number None None = Ok tree /\
    map TZOFFSETTO (subcomponents tree) = [0].
Proof.
  split; [reflexivity |]. eexists. split; reflexivity.
Qed.

(** ** The dynamic path *)

Lemma group_invariant_names (tz : tzobject) (times nums : list Z)
    (d : dict) :
  group_invariant tz times nums d ->
  map TZNAME (dict_values d) = map fst d /\
  forall sub, In sub (dict_values d) ->
              made_from tz times nums (TZNAME sub) sub.
Proof.
  intros [Hkeys [Hmade _]].
  assert (Hnd : NoDup (map fst d)).
  { rewrite Hkeys. apply first_seen_NoDup. }
  assert (Hall : forall k sub, In (k, sub) d ->
                               TZNAME sub = k /\ made_from tz times nums k sub).
  { intros k sub Hin. pose proof (dict_In_get _ _ _ Hnd Hin) as Hget.
    pose proof (Hmade _ _ Hget) as Hsub. split; [| exact Hsub].
    destruct Hsub as (first & later & _ & Hn & _). exact Hn. }
  split.
  - unfold dict_values. rewrite map_map. apply map_ext_in.
    intros [k sub] Hin. now apply Hall.
  - intros sub Hin. unfold dict_values in Hin. apply in_map_iff in Hin.
    destruct Hin as [[k sub'] [Heq Hin]]. cbn in Heq. subst sub'.
    destruct (Hall _ _ Hin) as [-> Hsub]. exact Hsub.
Qed.


(** *** The sample zone *)

Lemma sample_times_increasing : increasing sample_times.
Proof. unfold increasing. sample_positions i j Hi Hij Hj. Qed.


Lemma sample_zone_dynamic : dynamic_zone sample_zone sample_times.
Proof. repeat split. discriminate. Qed.


Lemma sample_scan :
  scan true sample_times sample_first_date sample_last_date
    = Ok sample_state.
Proof. vm_compute. reflexivity. Qed.

Lemma sample_build :
  create_timezone 0 0 sample_zone
    (Some sample_first_date) (Some sample_last_date) = Ok sample_tree.
Proof. vm_compute. reflexivity. Qed.

Lemma early_scan :
  scan true sample_times early_first_date sample_last_date = Ok early_state.
Proof. vm_compute. reflexivity. Qed.

Lemma early_build :
  create_timezone 0 0 sample_zone
    (Some early_first_date) (Some sample_last_date) = Ok early_tree.
Proof. vm_compute. reflexivity. Qed.


Lemma winter_build :
  create_timezone 0 0 sample_zone
    (Some sample_last_date) (Some sample_last_date) = Ok winter_tree.
Proof. vm_compute. reflexivity. Qed.


(** The [ValueError] of line 136 on the sample zone whose first offset
    is a plain number: with the sample window, transition 1 starts the
    sub-component CEST and the entry before it is the malformed one. *)
Lemma sample_plain_number_ValueError :
  create_timezone 0 0 sample_zone_plain_number
    (Some sample_first_date) (Some sample_last_date)
    = Raise (ValueError TZOFFSET_message).
Proof. vm_compute. reflexivity. Qed.



(** C3, as the code has it.  On a zone with a non-empty history in
    strictly increasing order, when the scan of a window
    [first_date .. last_date] completes, [first_num] is the latest
    position whose instant is strictly after transition 0's and strictly
    before [first_date] (0 when there is none) and [last_num] is the
    earliest position whose instant is strictly before the final
    transition's and strictly after [last_date] (the last position when
    there is none); and a returned tree shows exactly the transitions of
    the positions [first_num .. last_num], each once, as a DTSTART or as
    an RDATE under its name. *)
Theorem C3_selected_window :
  forall (now_first now_last : Z) (tz : tzobject) (times : list Z)
         (first_date last_date : Z) (st : scan_state),
    dynamic_zone tz times ->
    increasing times ->
    scan (aware_history tz) times first_date last_date = Ok st ->
    latest_before_window times first_date (first_num st) /\
    earliest_after_window times last_date (last_num st) /\
    (forall tree,
        create_timezone now_first now_last tz
          (Some first_date) (Some last_date) = Ok tree ->
        Permutation
          (rendered (subcomponents tree))
          (map (transition_row tz times)
               (py_range (first_num st) (last_num st + 1)))).
Proof.
  intros now_first now_last tz times first_date last_date st
         Hdyn Hinc Hscan.
  destruct (scan_exact_final _ _ _ _ _ Hinc Hscan) as [Hfirst Hlast].
  split; [exact Hfirst |]. split; [exact Hlast |].
  intros tree Hbuild.
  destruct (create_timezone_tree now_first now_last tz times
              (Some first_date) (Some last_date) st tree Hdyn Hscan Hbuild)
    as [d [Hsubs [_ [_ [_ Hperm]]]]].
  rewrite Hsubs. exact Hperm.
Qed.

(** C3 on the sample zone and window. *)
Lemma C3_witness :
  dynamic_zone sample_zone sample_times /\
  increasing sample_times /\
  scan (aware_history sample_zone) sample_times
       sample_first_date sample_last_date = Ok sample_state /\
  latest_before_window sample_times sample_first_date 1 /\
  earliest_after_window sample_times sample_last_date 3 /\
  Permutation
    (rendered (subcomponents sample_tree))
    (map (transition_row sample_zone sample_times) (py_range 1 (3 + 1))).
Proof.
  split; [exact sample_zone_dynamic |].
  split; [exact sample_times_increasing |].
  split; [exact sample_scan |].
  destruct (C3_selected_window 0 0 sample_zone sample_times
              sample_first_date sample_last_date sample_state
              sample_zone_dynamic sample_times_increasing sample_scan)
    as [Hfirst [Hlast Hshown]].
  split; [exact Hfirst |]. split; [exact Hlast |].
  exact (Hshown sample_tree sample_build).
Defined.

(** C3, as the specification words it, fails on an ordered history with
    two transitions at one instant: the scan of [0; 5; 5; 9] with
    [first_date = 7] ends with [first_num = 1], while position 2 is later
    and its instant too is strictly after transition 0's and strictly
    before [first_date]. *)
Lemma C3_counterexample_tie :
  nondecreasing [0; 5; 5; 9] /\
  exists st,
    scan true [0; 5; 5; 9] 7 7 = Ok st /\
    first_num st = 1 /\
    before_window [0; 5; 5; 9] 7 2 /\
    ~ latest_before_window [0; 5; 5; 9] 7 (first_num st).
Proof.
  assert (Hbw : before_window [0; 5; 5; 9] 7 2).
  { unfold before_window, valid_index. repeat split; vm_compute; congruence. }
  split.
  - intros i j Hi Hij Hj. cbn in Hj.
    assert (Ei : i = 0 \/ i = 1 \/ i = 2) by lia.
    assert (Ej : j = 1 \/ j = 2 \/ j = 3) by lia.
    destruct Ei as [-> | [-> | ->]]; destruct Ej as [-> | [-> | ->]];
      try lia; vm_compute; congruence.
  - eexists. split; [vm_compute; reflexivity |].
    split; [reflexivity |]. split; [exact Hbw |].
    cbn [first_num]. intros [[_ Hmax] | [Hzero _]].
    + specialize (Hmax 2 Hbw). lia.
    + discriminate Hzero.
Qed.

(** C4.  When a tree is returned for a zone with a history, it has as
    many sub-components as there are distinct names among the transitions
    of the selected range, one per name; each starts at the first
    transition of its name and carries the local start of every later
    transition of that name in the range as an RDATE value, in order. *)
Theorem C4_one_subcomponent_per_name :
  forall (now_first now_last : Z) (tz : tzobject) (times : list Z)
         (first_date last_date : option Z) (st : scan_state)
         (tree : Timezone),
    dynamic_zone tz times ->
    scan (aware_history tz) times
        (or_now now_first first_date) (or_now now_last last_date) = Ok st ->
    create_timezone now_first now_last tz first_date last_date = Ok tree ->
    let nums := py_range (first_num st) (last_num st + 1) in
    List.length (subcomponents tree)
      = List.length (nodup string_dec (map (name_at tz) nums)) /\
    NoDup (map TZNAME (subcomponents tree)) /\
    (forall sub,
        In sub (subcomponents tree) ->
        exists first later,
          occurrences tz (TZNAME sub) nums = first :: later /\
          DTSTART sub = local_start tz times first /\
          RDATE_values sub = map (local_start tz times) later /\
          (RDATE sub = None <-> later = [])) /\
    List.length (rendered (subcomponents tree)) = List.length nums.
Proof.
  intros now_first now_last tz times first_date last_date st tree
         Hdyn Hscan Hbuild nums.
  destruct (create_timezone_tree _ _ _ _ _ _ _ _ Hdyn Hscan Hbuild)
    as [d [Hsubs [_ Hinv]]].
  fold nums in Hinv.
  destruct (group_invariant_names _ _ _ _ Hinv) as [Hnames Hmade].
  destruct Hinv as [Hkeys [_ Hperm]].
  rewrite Hsubs. split; [| split; [| split]].
  - rewrite <- first_seen_count, <- Hkeys, <- Hnames.
    now rewrite length_map.
  - rewrite Hnames, Hkeys. apply first_seen_NoDup.
  - intros sub Hin.
    destruct (Hmade sub Hin)
      as (first & later & Hocc & _ & _ & Hd & _ & _ & Hr).
    exists first, later. split; [exact Hocc |]. split; [exact Hd |].
    unfold RDATE_values. rewrite Hr.
    destruct later; cbn; split; try reflexivity; split; congruence.
  - rewrite (Permutation_length Hperm). apply length_map.
Qed.

(** C4 on the sample zone and window: two names among three transitions. *)
Lemma C4_witness :
  dynamic_zone sample_zone sample_times /\
  scan true sample_times (or_now 0 (Some sample_first_date))
       (or_now 0 (Some sample_last_date)) = Ok sample_state /\
  create_timezone 0 0 sample_zone
    (Some sample_first_date) (Some sample_last_date) = Ok sample_tree /\
  List.length (subcomponents sample_tree)
    = List.length
        (nodup string_dec (map (name_at sample_zone) (py_range 1 (3 + 1)))).
Proof.
  split; [exact sample_zone_dynamic |].
  split; [exact sample_scan |].
  split; [exact sample_build |].
  exact (proj1 (C4_one_subcomponent_per_name 0 0 sample_zone sample_times
                  (Some sample_first_date) (Some sample_last_date)
                  sample_state sample_tree
                  sample_zone_dynamic sample_scan sample_build)).
Defined.

(** C5.  When the selected range holds exactly three transitions, named
    A, B, A in that order, a returned tree has exactly two sub-components:
    the first is named A and its RDATE holds one value, the local start of
    the second A transition; the second is named B and has no RDATE. *)
Theorem C5_names_A_B_A :
  forall (now_first now_last : Z) (tz : tzobject) (times : list Z)
         (first_date last_date : option Z) (st : scan_state)
         (A B : string) (tree : Timezone),
    dynamic_zone tz times ->
    scan (aware_history tz) times
      (or_now now_first first_date) (or_now now_last last_date) = Ok st ->
    last_num st = first_num st + 2 ->
    name_at tz (first_num st) = A ->
    name_at tz (first_num st + 1) = B ->
    name_at tz (first_num st + 2) = A ->
    A <> B ->
    create_timezone now_first now_last tz first_date last_date = Ok tree ->
    exists subA subB,
      subcomponents tree = [subA; subB] /\
      TZNAME subA = A /\
      RDATE subA = Some [local_start tz times (first_num st + 2)] /\
      TZNAME subB = B /\
      RDATE subB = None.
Proof.
  intros now_first now_last tz times first_date last_date st A B tree
         Hdyn Hscan Hlast HA1 HB HA2 Hneq Hbuild.
  set (f := first_num st) in *.
  assert (Hnums : py_range f (last_num st + 1) = [f; f + 1; f + 2]).
  { rewrite Hlast.
    rewrite (py_range_cons f) by lia.
    rewrite (py_range_cons (f + 1)) by lia.
    rewrite (py_range_cons (f + 1 + 1)) by lia.
    rewrite py_range_empty by lia.
    now replace (f + 1 + 1) with (f + 2) by lia. }
  assert (HAB : String.eqb A B = false) by now apply String.eqb_neq.
  assert (HBA : String.eqb B A = false)
    by (apply String.eqb_neq; congruence).
  destruct (create_timezone_tree _ _ _ _ _ _ _ _ Hdyn Hscan Hbuild)
    as [d [Hsubs [_ [Hkeys [Hmade _]]]]].
  fold f in Hkeys, Hmade. rewrite Hnums in Hkeys, Hmade.
  cbn [map] in Hkeys. rewrite HA1, HB, HA2 in Hkeys.
  unfold first_seen in Hkeys. cbn [fold_left existsb app] in Hkeys.
  rewrite HBA in Hkeys. cbn [orb app existsb] in Hkeys.
  rewrite String.eqb_refl in Hkeys. cbn [orb] in Hkeys.
  destruct d as [| [kA subA] [| [kB subB] [| extra d]]];
    try discriminate.
  injection Hkeys as -> ->.
  exists subA, subB. rewrite Hsubs. split; [reflexivity |].
  assert (HgA : dict_get A [(A, subA); (B, subB)] = Some subA).
  { cbn. now rewrite String.eqb_refl. }
  assert (HgB : dict_get B [(A, subA); (B, subB)] = Some subB).
  { cbn. now rewrite HAB, String.eqb_refl. }
  destruct (Hmade _ _ HgA)
    as (first & later & Hocc & Hn & _ & _ & _ & _ & Hr).
  destruct (Hmade _ _ HgB)
    as (first' & later' & Hocc' & Hn' & _ & _ & _ & _ & Hr').
  unfold occurrences in Hocc, Hocc'. cbn [filter] in Hocc, Hocc'.
  rewrite HA1, HB, HA2 in Hocc, Hocc'.
  rewrite String.eqb_refl, HBA in Hocc.
  rewrite String.eqb_refl, HAB in Hocc'.
  injection Hocc as <- <-. injection Hocc' as <- <-.
  repeat split; assumption.
Qed.

(** C5 on the sample zone and window: CEST, CET, CEST. *)
Lemma C5_witness :
  dynamic_zone sample_zone sample_times /\
  scan (aware_history sample_zone) sample_times
       (or_now 0 (Some sample_first_date))
       (or_now 0 (Some sample_last_date)) = Ok sample_state /\
  last_num sample_state = first_num sample_state + 2 /\
  name_at sample_zone (first_num sample_state) = "CEST"%string /\
  name_at sample_zone (first_num sample_state + 1) = "CET"%string /\
  name_at sample_zone (first_num sample_state + 2) = "CEST"%string /\
  "CEST"%string <> "CET"%string /\
  create_timezone 0 0 sample_zone
    (Some sample_first_date) (Some sample_last_date) = Ok sample_tree /\
  exists subA subB,
    subcomponents sample_tree = [subA; subB] /\
    TZNAME subA = "CEST"%string /\
    RDATE subA = Some [local_start sample_zone sample_times 3] /\
    TZNAME subB = "CET"%string /\
    RDATE subB = None.
Proof.
  assert (Hneq : "CEST"%string <> "CET"%string) by discriminate.
  split; [exact sample_zone_dynamic |].
  split; [exact sample_scan |].
  repeat (split; [reflexivity |]).
  split; [exact Hneq |]. split; [exact sample_build |].
  exact (C5_names_A_B_A 0 0 sample_zone sample_times
           (Some sample_first_date) (Some sample_last_date)
           sample_state "CEST" "CET" sample_tree
           sample_zone_dynamic sample_scan
           eq_refl eq_refl eq_refl eq_refl Hneq sample_build).
Defined.

(** C6.  For every position [num > 0] of the selected range that is the
    first of its name there, a returned tree has the sub-component of
    that name, whose TZOFFSETTO is the offset recorded at [num] and whose
    TZOFFSETFROM is the offset recorded at [num - 1]. *)
Theorem C6_offsets_of_a_new_subcomponent :
  forall (now_first now_last : Z) (tz : tzobject) (times : list Z)
         (first_date last_date : option Z) (st : scan_state)
         (tree : Timezone) (num : Z),
    dynamic_zone tz times ->
    scan (aware_history tz) times
        (or_now now_first first_date) (or_now now_last last_date) = Ok st ->
    create_timezone now_first now_last tz first_date last_date = Ok tree ->
    first_occurrence tz (py_range (first_num st) (last_num st + 1)) num ->
    0 < num ->
    exists sub,
      In sub (subcomponents tree) /\
      TZNAME sub = name_at tz num /\
      DTSTART sub = local_start tz times num /\
      offset_at tz num = PyTimedelta (TZOFFSETTO sub) /\
      offset_at tz (num - 1) = PyTimedelta (TZOFFSETFROM sub).
Proof.
  intros now_first now_last tz times first_date last_date st tree num
         Hdyn Hscan Hbuild Hfirst Hpos.
  destruct (first_occurrence_subcomponent _ _ _ _ _ _ _ _ _
              Hdyn Hscan Hbuild Hfirst)
    as (sub & Hin & Hmade & Hd & Hto & previous & Hprev & Hfrom).
  exists sub. split; [exact Hin |].
  split; [destruct Hmade as (_ & _ & _ & Hn & _); exact Hn |].
  split; [exact Hd |]. split; [exact Hto |].
  assert (Hv : valid_index times num).
  { apply (selected_valid _ _ _ _ _ Hscan).
    now apply (first_occurrence_In tz). }
  destruct Hdyn as [_ [_ Hlen]].
  rewrite (previous_index_positive tz times Hlen num Hv Hpos) in Hprev.
  injection Hprev as <-. exact Hfrom.
Qed.

(** C6 at position 2 of the sample zone, the first CET of the window. *)
Lemma C6_witness :
  dynamic_zone sample_zone sample_times /\
  scan true sample_times (or_now 0 (Some sample_first_date))
       (or_now 0 (Some sample_last_date)) = Ok sample_state /\
  create_timezone 0 0 sample_zone
    (Some sample_first_date) (Some sample_last_date) = Ok sample_tree /\
  first_occurrence sample_zone
    (py_range (first_num sample_state) (last_num sample_state + 1)) 2 /\
  0 < 2 /\
  exists sub,
    In sub (subcomponents sample_tree) /\
    TZNAME sub = name_at sample_zone 2 /\
    DTSTART sub = local_start sample_zone sample_times 2 /\
    offset_at sample_zone 2 = PyTimedelta (TZOFFSETTO sub) /\
    offset_at sample_zone (2 - 1) = PyTimedelta (TZOFFSETFROM sub).
Proof.
  assert (Hfirst : first_occurrence sample_zone
                     (py_range (first_num sample_state)
                               (last_num sample_state + 1)) 2).
  { exists [1], [3]. split; [reflexivity |].
    cbn. intros [H | []]. discriminate. }
  assert (Hpos : 0 < 2) by lia.
  split; [exact sample_zone_dynamic |].
  split; [exact sample_scan |].
  split; [exact sample_build |].
  split; [exact Hfirst |]. split; [exact Hpos |].
  exact (C6_offsets_of_a_new_subcomponent 0 0 sample_zone sample_times
           (Some sample_first_date) (Some sample_last_date)
           sample_state sample_tree 2
           sample_zone_dynamic sample_scan sample_build Hfirst Hpos).
Defined.

(** C7.  When the selected range starts at position 0 of the history, a
    returned tree has the sub-component made for transition 0, and its
    TZOFFSETFROM is the offset recorded at the last position of the
    history: the read at position [0 - 1] counts from the end and raises
    nothing. *)
Theorem C7_offset_from_wraps_at_position_zero :
  forall (now_first now_last : Z) (tz : tzobject) (times : list Z)
         (first_date last_date : option Z) (st : scan_state)
         (tree : Timezone),
    dynamic_zone tz times ->
    scan (aware_history tz) times
        (or_now now_first first_date) (or_now now_last last_date) = Ok st ->
    first_num st = 0 ->
    create_timezone now_first now_last tz first_date last_date = Ok tree ->
    py_index (transition_info tz) (0 - 1)
      = Ok (entry_at tz (Z.of_nat (List.length times) - 1)) /\
    exists sub,
      In sub (subcomponents tree) /\
      TZNAME sub = name_at tz 0 /\
      DTSTART sub = local_start tz times 0 /\
      offset_at tz 0 = PyTimedelta (TZOFFSETTO sub) /\
      offset_at tz (Z.of_nat (List.length times) - 1)
        = PyTimedelta (TZOFFSETFROM sub).
Proof.
  intros now_first now_last tz times first_date last_date st tree
         Hdyn Hscan Hzero Hbuild.
  destruct (scan_within_bounds _ _ _ _ _ Hscan) as [Hf [Hl _]].
  assert (Hv : valid_index times 0) by (unfold valid_index in *; lia).
  assert (Hlen : List.length (transition_info tz) = List.length times)
    by apply Hdyn.
  pose proof (previous_index_zero tz times Hlen Hv) as Hwrap.
  split; [exact Hwrap |].
  assert (Hfirst : first_occurrence tz
                     (py_range (first_num st) (last_num st + 1)) 0).
  { rewrite Hzero. unfold valid_index in Hl.
    rewrite py_range_cons by lia.
    exists [], (py_range (0 + 1) (last_num st + 1)).
    split; [reflexivity | intros []]. }
  destruct (first_occurrence_subcomponent _ _ _ _ _ _ _ _ _
              Hdyn Hscan Hbuild Hfirst)
    as (sub & Hin & Hmade & Hd & Hto & previous & Hprev & Hfrom).
  exists sub. split; [exact Hin |].
  split; [destruct Hmade as (_ & _ & _ & Hn & _); exact Hn |].
  split; [exact Hd |]. split; [exact Hto |].
  rewrite Hwrap in Hprev. injection Hprev as <-. exact Hfrom.
Qed.

(** C7 on the sample zone with the window that opens before transition 1. *)
Lemma C7_witness :
  dynamic_zone sample_zone sample_times /\
  scan true sample_times (or_now 0 (Some early_first_date))
       (or_now 0 (Some sample_last_date)) = Ok early_state /\
  first_num early_state = 0 /\
  create_timezone 0 0 sample_zone
    (Some early_first_date) (Some sample_last_date) = Ok early_tree /\
  exists sub,
    In sub (subcomponents early_tree) /\
    TZNAME sub = name_at sample_zone 0 /\
    DTSTART sub = local_start sample_zone sample_times 0 /\
    offset_at sample_zone 0 = PyTimedelta (TZOFFSETTO sub) /\
    offset_at sample_zone (Z.of_nat (List.length sample_times) - 1)
      = PyTimedelta (TZOFFSETFROM sub).
Proof.
  split; [exact sample_zone_dynamic |].
  split; [exact early_scan |].
  split; [reflexivity |].
  split; [exact early_build |].
  exact (proj2 (C7_offset_from_wraps_at_position_zero 0 0 sample_zone
                  sample_times (Some early_first_date)
                  (Some sample_last_date) early_state early_tree
                  sample_zone_dynamic early_scan eq_refl early_build)).
Defined.





(** ** Remarks on the hypotheses *)

(** The sentinel of the static path is day 584389 of the calendar. *)
Example datetime_1601 : naive_datetime 1601 1 1 = 584388 * US_PER_DAY.
Proof. reflexivity. Qed.

(** On a history that is not in chronological order the selected range
    can be empty, and the tree with it. *)
Example scan_out_of_order :
  exists st, scan true [0; 10; 2; 20] 5 5 = Ok st /\
             first_num st = 2 /\ last_num st = 1.
Proof. eexists. repeat split. Qed.

(** A zone as pytz builds it, with a naive history of two instants or
    more, does not pass the scan: the bounds are aware. *)
Example create_timezone_naive_history :
  create_timezone 0 0 sample_zone_naive
    (Some sample_first_date) (Some sample_last_date) = Raise TypeError.
Proof. vm_compute. reflexivity. Qed.

(** An object that is no [tzinfo] is refused on line 74. *)
Example create_timezone_not_a_zone :
  create_timezone 0 0 not_a_zone None None = Raise TypeError.
Proof. reflexivity. Qed.

(** * Further properties of the code *)

(** ** The window scan, lines 98-108 *)

Lemma increasing_le (times : list Z) (i j : Z) :
  increasing times ->
  0 <= i -> i <= j -> j < Z.of_nat (List.length times) ->
  time_at times i <= time_at times j.
Proof.
  intros Hinc Hi Hij Hj. destruct (Z.eq_dec i j) as [-> | Hne]; [lia |].
  pose proof (Hinc i j Hi ltac:(lia) Hj). lia.
Qed.

Lemma increasing_lt_inv (times : list Z) (i j : Z) :
  increasing times ->
  valid_index times i -> valid_index times j ->
  time_at times i < time_at times j -> i < j.
Proof.
  intros Hinc Hi Hj Hlt. unfold valid_index in *.
  destruct (Z_lt_le_dec i j) as [H | H]; [exact H |].
  pose proof (increasing_le times j i Hinc ltac:(lia) H ltac:(lia)). lia.
Qed.

Lemma scan_in_effect (aware : bool) (times : list Z)
    (first_date last_date : Z) (st : scan_state) :
  increasing times ->
  scan aware times first_date last_date = Ok st ->
  last_before times first_date (first_num st) /\
  first_after times last_date (last_num st).
Proof.
  intros Hinc Hscan.
  assert (Hlen : 0 < Z.of_nat (List.length times)).
  { destruct times; [discriminate | cbn; lia]. }
  assert (H0 : valid_index times 0) by (unfold valid_index; lia).
  assert (Hlast : valid_index times (Z.of_nat (List.length times) - 1))
    by (unfold valid_index; lia).
  destruct (scan_exact_final _ _ _ _ _ Hinc Hscan) as [HF HL]. split.
  - destruct HF as [[[Hv [Hgt Hlt]] Hmax] | [Hf Hnone]].
    + left. split; [exact Hv |]. split; [exact Hlt |].
      intros j Hj Hjlt. destruct (Z.eq_dec j 0) as [-> | Hne].
      * apply Hv.
      * apply Hmax. split; [exact Hj |]. split; [| exact Hjlt].
        unfold valid_index in Hj.
        pose proof (Hinc 0 j ltac:(lia) ltac:(lia) ltac:(lia)). lia.
    + rewrite Hf.
      destruct (Z_lt_le_dec (time_at times 0) first_date) as [Hin | Hout].
      * left. split; [exact H0 |]. split; [exact Hin |].
        intros j Hj Hjlt. destruct (Z.eq_dec j 0) as [-> | Hne]; [lia |].
        exfalso. apply (Hnone j). split; [exact Hj |].
        split; [| exact Hjlt]. unfold valid_index in Hj.
        pose proof (Hinc 0 j ltac:(lia) ltac:(lia) ltac:(lia)). lia.
      * right. split; [reflexivity |]. intros j Hj.
        unfold valid_index in Hj.
        pose proof (increasing_le times 0 j Hinc ltac:(lia) ltac:(lia)
                      ltac:(lia)). lia.
  - destruct HL as [[[Hv [Hlt Hgt]] Hmin] | [Hl Hnone]].
    + left. split; [exact Hv |]. split; [lia |].
      intros j Hj Hjgt. destruct (Z.eq_dec j (Z.of_nat (List.length times) - 1)) as [-> | Hne].
      * unfold valid_index in Hv. lia.
      * apply Hmin. split; [exact Hj |]. split; [| lia].
        unfold valid_index in Hj.
        pose proof (Hinc j (Z.of_nat (List.length times) - 1) ltac:(lia) ltac:(lia) ltac:(lia)). lia.
    + rewrite Hl.
      destruct (Z_lt_le_dec last_date (time_at times (Z.of_nat (List.length times) - 1)))
        as [Hin | Hout].
      * left. split; [exact Hlast |]. split; [exact Hin |].
        intros j Hj Hjgt. unfold valid_index in Hj.
        destruct (Z.eq_dec j (Z.of_nat (List.length times) - 1)) as [-> | Hne]; [lia |].
        exfalso. apply (Hnone j). split; [exact Hj |].
        split; [| lia].
        pose proof (Hinc j (Z.of_nat (List.length times) - 1) ltac:(lia) ltac:(lia) ltac:(lia)). lia.
      * right. split; [reflexivity |]. intros j Hj.
        unfold valid_index in Hj.
        pose proof (increasing_le times j (Z.of_nat (List.length times) - 1) Hinc ltac:(lia) ltac:(lia)
                      ltac:(lia)). lia.
Qed.

(** X1.  On a strictly increasing history the two guards of the scan
    ([> first_tt], [< last_tt]) change nothing: [first_num] is the last
    position whose instant is strictly before [first_date] (0 when there
    is none), the transition in effect when the window opens, and
    [last_num] is the first position whose instant is strictly after
    [last_date] (the last position when there is none). *)
Theorem X1_scan_selects_transitions_in_effect :
  forall (aware : bool) (times : list Z) (first_date last_date : Z)
         (st : scan_state),
    increasing times ->
    scan aware times first_date last_date = Ok st ->
    last_before times first_date (first_num st) /\
    first_after times last_date (last_num st).
Proof. exact scan_in_effect. Qed.

Lemma sample_positions_cases (j : Z) :
  valid_index sample_times j -> j = 0 \/ j = 1 \/ j = 2 \/ j = 3.
Proof. unfold valid_index. cbn. lia. Qed.

(** X1 on the sample history and window. *)
Lemma X1_witness :
  increasing sample_times /\
  scan true sample_times sample_first_date sample_last_date = Ok sample_state /\
  last_before sample_times sample_first_date 1 /\
  first_after sample_times sample_last_date 3.
Proof.
  split; [exact sample_times_increasing |].
  split; [exact sample_scan |].
  exact (X1_scan_selects_transitions_in_effect true sample_times
           sample_first_date sample_last_date sample_state
           sample_times_increasing sample_scan).
Defined.

(** X2.  On a strictly increasing history every transition whose instant
    lies inside the window, bounds included, is in the selected range. *)
Theorem X2_range_covers_the_window :
  forall (aware : bool) (times : list Z) (first_date last_date : Z)
         (st : scan_state) (i : Z),
    increasing times ->
    scan aware times first_date last_date = Ok st ->
    valid_index times i ->
    first_date <= time_at times i <= last_date ->
    first_num st <= i <= last_num st.
Proof.
  intros aware times first_date last_date st i Hinc Hscan Hi Hwin.
  destruct (scan_in_effect _ _ _ _ _ Hinc Hscan) as [HF HL]. split.
  - destruct HF as [[Hv [Hlt _]] | [-> _]]; [| apply Hi].
    pose proof (increasing_lt_inv times (first_num st) i Hinc Hv Hi). lia.
  - destruct HL as [[Hv [Hgt _]] | [-> _]];
      [| unfold valid_index in Hi; lia].
    pose proof (increasing_lt_inv times i (last_num st) Hinc Hi Hv). lia.
Qed.

(** X2 at transition 2 of the sample history, which falls inside the
    sample window. *)
Lemma X2_witness :
  increasing sample_times /\
  scan true sample_times sample_first_date sample_last_date = Ok sample_state /\
  valid_index sample_times 2 /\
  sample_first_date <= time_at sample_times 2 <= sample_last_date /\
  first_num sample_state <= 2 <= last_num sample_state.
Proof.
  assert (Hv : valid_index sample_times 2) by (unfold valid_index; cbn; lia).
  assert (Hwin : sample_first_date <= time_at sample_times 2
                 <= sample_last_date)
    by (split; vm_compute; congruence).
  split; [exact sample_times_increasing |].
  split; [exact sample_scan |].
  split; [exact Hv |]. split; [exact Hwin |].
  exact (X2_range_covers_the_window true sample_times sample_first_date
           sample_last_date sample_state 2
           sample_times_increasing sample_scan Hv Hwin).
Defined.

(** X3.  On a strictly increasing history the selected bounds follow the
    window: a later [first_date] never gives an earlier [first_num], and
    a later [last_date] never gives an earlier [last_num]; so a wider
    window selects a range that contains the narrower window's range. *)
Theorem X3_scan_monotone_in_the_window :
  forall (aware : bool) (times : list Z)
         (first_date first_date' last_date last_date' : Z)
         (st st' : scan_state),
    increasing times ->
    scan aware times first_date last_date = Ok st ->
    scan aware times first_date' last_date' = Ok st' ->
    (first_date <= first_date' -> first_num st <= first_num st') /\
    (last_date <= last_date' -> last_num st <= last_num st').
Proof.
  intros aware times fd fd' ld ld' st st' Hinc Hscan Hscan'.
  destruct (scan_in_effect _ _ _ _ _ Hinc Hscan) as [HF HL].
  destruct (scan_in_effect _ _ _ _ _ Hinc Hscan') as [HF' HL'].
  destruct (scan_within_bounds _ _ _ _ _ Hscan) as [Hf [Hl _]].
  destruct (scan_within_bounds _ _ _ _ _ Hscan') as [Hf' [Hl' _]].
  unfold valid_index in Hf, Hl, Hf', Hl'.
  split; intros Hle.
  - destruct HF as [[Hv [Hlt _]] | [-> _]]; [| lia].
    destruct HF' as [[_ [_ Hmax]] | [_ Hnone]].
    + apply Hmax; [exact Hv | lia].
    + pose proof (Hnone _ Hv). lia.
  - destruct HL' as [[Hv' [Hgt' _]] | [-> _]]; [| lia].
    destruct HL as [[_ [_ Hmin]] | [_ Hnone]].
    + apply Hmin; [exact Hv' | lia].
    + pose proof (Hnone _ Hv'). lia.
Qed.

(** X3 on the sample history: the window that opens in January 2023
    against the one that opens in June. *)
Lemma X3_witness :
  increasing sample_times /\
  scan true sample_times early_first_date sample_last_date = Ok early_state /\
  scan true sample_times sample_first_date sample_last_date = Ok sample_state /\
  early_first_date <= sample_first_date /\
  first_num early_state <= first_num sample_state.
Proof.
  assert (Hle : early_first_date <= sample_first_date)
    by (vm_compute; congruence).
  split; [exact sample_times_increasing |].
  split; [exact early_scan |]. split; [exact sample_scan |].
  split; [exact Hle |].
  exact (proj1 (X3_scan_monotone_in_the_window true sample_times
                  early_first_date sample_first_date
                  sample_last_date sample_last_date
                  early_state sample_state
                  sample_times_increasing early_scan sample_scan) Hle).
Defined.

(** X4.  When both bounds are one instant that falls strictly between
    two consecutive transitions [k] and [k + 1] of a strictly increasing
    history (the case of the default window, read from the clock), the
    selected range is exactly these two positions: the transition in
    effect and the next one. *)
Theorem X4_instant_between_two_transitions :
  forall (aware : bool) (times : list Z) (now : Z) (st : scan_state)
         (k : Z),
    increasing times ->
    scan aware times now now = Ok st ->
    0 <= k -> k + 1 < Z.of_nat (List.length times) ->
    time_at times k < now < time_at times (k + 1) ->
    first_num st = k /\ last_num st = k + 1.
Proof.
  intros aware times now st k Hinc Hscan Hk Hk1 Hnow.
  destruct (scan_in_effect _ _ _ _ _ Hinc Hscan) as [HF HL].
  assert (Hvk : valid_index times k) by (unfold valid_index; lia).
  assert (Hvk1 : valid_index times (k + 1)) by (unfold valid_index; lia).
  split.
  - destruct HF as [[Hv [Hlt Hmax]] | [_ Hnone]].
    + pose proof (Hmax k Hvk ltac:(lia)).
      pose proof (increasing_lt_inv times (first_num st) (k + 1) Hinc Hv Hvk1
                    ltac:(lia)).
      lia.
    + pose proof (Hnone k Hvk). lia.
  - destruct HL as [[Hv [Hgt Hmin]] | [_ Hnone]].
    + pose proof (Hmin (k + 1) Hvk1 ltac:(lia)).
      pose proof (increasing_lt_inv times k (last_num st) Hinc Hvk Hv
                    ltac:(lia)).
      lia.
    + pose proof (Hnone (k + 1) Hvk1). lia.
Qed.

Lemma june_scan :
  scan true sample_times sample_first_date sample_first_date = Ok june_state.
Proof. vm_compute. reflexivity. Qed.

(** X4 on the first of June 2023, between the transitions 1 and 2 of the
    sample history. *)
Lemma X4_witness :
  increasing sample_times /\
  scan true sample_times sample_first_date sample_first_date = Ok june_state /\
  0 <= 1 /\ 1 + 1 < Z.of_nat (List.length sample_times) /\
  time_at sample_times 1 < sample_first_date < time_at sample_times (1 + 1) /\
  first_num june_state = 1 /\ last_num june_state = 1 + 1.
Proof.
  assert (H0 : 0 <= 1) by lia.
  assert (H1 : 1 + 1 < Z.of_nat (List.length sample_times)) by (cbn; lia).
  assert (Hnow : time_at sample_times 1 < sample_first_date
                 < time_at sample_times (1 + 1))
    by (split; vm_compute; congruence).
  split; [exact sample_times_increasing |].
  split; [exact june_scan |].
  split; [exact H0 |]. split; [exact H1 |]. split; [exact Hnow |].
  exact (X4_instant_between_two_transitions true sample_times sample_first_date
           june_state 1 sample_times_increasing june_scan H0 H1 Hnow).
Defined.

(** X5.  Whatever the order of the history, the scan never leaves it:
    [first_num] and [last_num] are positions of the history, [first_tt]
    and [last_tt] are the instants found there, and each bound is either
    its initial value (0, the last position) or a position whose instant
    is strictly on the outer side of the window. *)
Theorem X5_scan_stays_inside_the_history :
  forall (aware : bool) (times : list Z) (first_date last_date : Z)
         (st : scan_state),
    scan aware times first_date last_date = Ok st ->
    valid_index times (first_num st) /\
    valid_index times (last_num st) /\
    first_tt st = time_at times (first_num st) /\
    last_tt st = time_at times (last_num st) /\
    (first_num st = 0 \/ time_at times (first_num st) < first_date) /\
    (last_num st = Z.of_nat (List.length times) - 1 \/
     time_at times (last_num st) > last_date).
Proof. exact scan_within_bounds. Qed.

(** X5 on a history that is not in chronological order. *)
Lemma X5_witness :
  exists st,
    scan true [0; 10; 2; 20] 5 5 = Ok st /\
    valid_index [0; 10; 2; 20] (first_num st) /\
    valid_index [0; 10; 2; 20] (last_num st).
Proof.
  eexists. split; [reflexivity |].
  pose proof (X5_scan_stays_inside_the_history true [0; 10; 2; 20] 5 5 _ eq_refl)
    as H.
  split; [exact (proj1 H) | exact (proj1 (proj2 H))].
Defined.

(** ** The grouping loop and the returned tree, lines 110-145 *)

Lemma py_index_returns {A : Type} (l : list A) (i : Z) (a : A) :
  py_index l i = Ok a ->
  - Z.of_nat (List.length l) <= i < Z.of_nat (List.length l).
Proof.
  intros H.
  destruct (Z_lt_le_dec i (- Z.of_nat (List.length l))) as [Hlo | Hlo].
  - rewrite py_index_outside in H by lia. discriminate.
  - destruct (Z_lt_le_dec i (Z.of_nat (List.length l))) as [Hhi | Hhi];
      [lia |].
    rewrite py_index_outside in H by lia. discriminate.
Qed.

(** A step that returns has read its entry and its instant, and
    [tz.fromutc] has returned for that instant. *)
Lemma group_step_reads (tz : tzobject) (times : list Z) (d d' : dict)
    (num : Z) :
  group_step tz times d num = Ok d' ->
  exists info transtime ttime,
    py_index (transition_info tz) num = Ok info /\
    py_index times num = Ok transtime /\
    fromutc tz transtime = Ok ttime.
Proof.
  unfold group_step.
  destruct (py_index (transition_info tz) num) as [info | e];
    cbn [bind]; [| discriminate].
  destruct (dict_get (info_tzname info) d) as [sub |];
    (destruct (py_index times num) as [transtime | e1];
       cbn [bind]; [| discriminate]);
    (destruct (fromutc tz transtime) as [ttime | e2] eqn:Hfu;
       cbn [bind]; [| discriminate]);
    intros _; exists info, transtime, ttime; repeat split; assumption.
Qed.

Lemma group_loop_reads (tz : tzobject) (times : list Z) (nums : list Z) :
  forall (d d' : dict),
    group_loop tz times nums d = Ok d' ->
    forall num,
      In num nums ->
      exists info transtime ttime,
        py_index (transition_info tz) num = Ok info /\
        py_index times num = Ok transtime /\
        fromutc tz transtime = Ok ttime.
Proof.
  induction nums as [| n nums IH]; intros d d' H num Hin; [destruct Hin |].
  cbn in H.
  destruct (group_step tz times d n) as [d1 | e1] eqn:Hstep;
    cbn [bind] in H; [| discriminate].
  destruct Hin as [<- | Hin].
  - exact (group_step_reads _ _ _ _ _ Hstep).
  - exact (IH _ _ H num Hin).
Qed.

(** Where a tree is returned, [tz.fromutc] has returned for every
    transition of the selected range, and [local_start] is what it
    returned. *)
Lemma selected_fromutc (now_first now_last : Z) (tz : tzobject)
    (times : list Z) (first_date last_date : option Z) (st : scan_state)
    (tree : Timezone) (num : Z) :
  dynamic_zone tz times ->
  scan (aware_history tz) times
    (or_now now_first first_date) (or_now now_last last_date) = Ok st ->
  create_timezone now_first now_last tz first_date last_date = Ok tree ->
  first_num st <= num <= last_num st ->
  fromutc tz (time_at times num) = Ok (local_start tz times num).
Proof.
  intros Hdyn Hscan Hbuild Hnum.
  destruct (create_timezone_tree _ _ _ _ _ _ _ _ Hdyn Hscan Hbuild)
    as [d [_ [Hloop _]]].
  assert (Hin : In num (py_range (first_num st) (last_num st + 1)))
    by (apply py_range_In; lia).
  destruct (group_loop_reads _ _ _ _ _ Hloop num Hin)
    as (info & transtime & ttime & _ & Htime & Hfu).
  pose proof (selected_valid _ _ _ _ _ Hscan num Hin) as Hv.
  rewrite (py_index_inside times num 0 Hv) in Htime.
  injection Htime as <-. fold (time_at times num) in Hfu.
  unfold local_start. now rewrite Hfu.
Qed.

Lemma single_position_tree (now_first now_last : Z) (tz : tzobject)
    (times : list Z) (first_date last_date : option Z) (st : scan_state)
    (tree : Timezone) :
  dynamic_zone tz times ->
  scan (aware_history tz) times
      (or_now now_first first_date) (or_now now_last last_date) = Ok st ->
  first_num st = last_num st ->
  create_timezone now_first now_last tz first_date last_date = Ok tree ->
  exists sub,
    subcomponents tree = [sub] /\
    TZNAME sub = name_at tz (first_num st) /\
    component sub =
      (if truthy (info_dst (entry_at tz (first_num st)))
       then DAYLIGHT else STANDARD) /\
    DTSTART sub = local_start tz times (first_num st) /\
    offset_at tz (first_num st) = PyTimedelta (TZOFFSETTO sub) /\
    (exists previous,
        py_index (transition_info tz) (first_num st - 1) = Ok previous /\
        info_utcoffset previous = PyTimedelta (TZOFFSETFROM sub)) /\
    RDATE sub = None.
Proof.
  intros Hdyn Hscan Hsame Hbuild.
  destruct (create_timezone_tree _ _ _ _ _ _ _ _ Hdyn Hscan Hbuild)
    as [d [Hsubs [_ [Hkeys [Hmade _]]]]].
  rewrite <- Hsame in Hkeys, Hmade.
  rewrite py_range_cons, py_range_empty in Hkeys, Hmade by lia.
  cbn in Hkeys.
  destruct d as [| [k sub] [| extra d]]; try discriminate.
  injection Hkeys as ->. exists sub. split; [rewrite Hsubs; reflexivity |].
  destruct (Hmade (name_at tz (first_num st)) sub)
    as (first & later & Hocc & Hn & Hc & Hd & Hto & Hfrom & Hr).
  { cbn. now rewrite String.eqb_refl. }
  unfold occurrences in Hocc. cbn in Hocc.
  rewrite String.eqb_refl in Hocc. injection Hocc as <- <-.
  repeat split; assumption.
Qed.

(** X6.  When the selected range is a single position and a tree is
    returned, the two offsets read there are timedeltas and the tree has
    exactly one sub-component: named after that transition, of the class
    its own flag gives, starting at what [tz.fromutc] returned for its
    instant, with its recorded offset as TZOFFSETTO and without RDATE. *)
Theorem X6_single_position_range :
  forall (now_first now_last : Z) (tz : tzobject) (times : list Z)
         (first_date last_date : option Z) (st : scan_state)
         (tree : Timezone),
    dynamic_zone tz times ->
    scan (aware_history tz) times
        (or_now now_first first_date) (or_now now_last last_date) = Ok st ->
    first_num st = last_num st ->
    create_timezone now_first now_last tz first_date last_date = Ok tree ->
    offsets_are_timedelta tz (first_num st) = true /\
    exists sub,
      subcomponents tree = [sub] /\
      TZNAME sub = name_at tz (first_num st) /\
      (component sub = DAYLIGHT <->
       truthy (info_dst (entry_at tz (first_num st))) = true) /\
      fromutc tz (time_at times (first_num st)) = Ok (DTSTART sub) /\
      offset_at tz (first_num st) = PyTimedelta (TZOFFSETTO sub) /\
      RDATE sub = None.
Proof.
  intros now_first now_last tz times first_date last_date st tree
         Hdyn Hscan Hsame Hbuild.
  destruct (single_position_tree _ _ _ _ _ _ _ _ Hdyn Hscan Hsame Hbuild)
    as (sub & Hsubs & Hn & Hc & Hd & Hto & [previous [Hp Hfrom]] & Hr).
  split.
  - unfold offsets_are_timedelta. rewrite Hto, Hp, Hfrom. reflexivity.
  - exists sub. repeat split; try assumption.
    + intros Hday. rewrite Hc in Hday.
      destruct (truthy (info_dst (entry_at tz (first_num st))));
        [reflexivity | discriminate].
    + intros Hflag. now rewrite Hc, Hflag.
    + rewrite Hd.
      apply (selected_fromutc now_first now_last tz times first_date
               last_date st tree); try assumption. lia.
Qed.

Lemma late_scan : scan true sample_times late_date late_date = Ok late_state.
Proof. vm_compute. reflexivity. Qed.

Lemma late_build :
  create_timezone 0 0 sample_zone (Some late_date) (Some late_date)
    = Ok late_tree.
Proof. vm_compute. reflexivity. Qed.

(** X6 on the sample zone with a window after its last transition. *)
Lemma X6_witness :
  dynamic_zone sample_zone sample_times /\
  scan (aware_history sample_zone) sample_times
       (or_now 0 (Some late_date)) (or_now 0 (Some late_date))
    = Ok late_state /\
  first_num late_state = last_num late_state /\
  create_timezone 0 0 sample_zone (Some late_date) (Some late_date)
    = Ok late_tree /\
  offsets_are_timedelta sample_zone 3 = true /\
  exists sub,
    subcomponents late_tree = [sub] /\
    TZNAME sub = name_at sample_zone 3 /\
    RDATE sub = None.
Proof.
  split; [exact sample_zone_dynamic |].
  split; [exact late_scan |]. split; [reflexivity |].
  split; [exact late_build |].
  destruct (X6_single_position_range 0 0 sample_zone sample_times
              (Some late_date) (Some late_date) late_state late_tree
              sample_zone_dynamic late_scan eq_refl late_build)
    as (Hgood & sub & Hsubs & Hn & _ & _ & _ & Hr).
  split; [exact Hgood |].
  exists sub. repeat split; assumption.
Defined.

(** X7.  On a history of one transition the window plays no part: a
    returned tree has one sub-component, starting at what [tz.fromutc]
    returned for that transition, without RDATE, and its TZOFFSETFROM
    equals its TZOFFSETTO, because the entry before position 0 is the
    entry itself. *)
Theorem X7_history_of_one_transition :
  forall (now_first now_last : Z) (tz : tzobject) (t : Z)
         (first_date last_date : option Z) (tree : Timezone),
    dynamic_zone tz [t] ->
    create_timezone now_first now_last tz first_date last_date = Ok tree ->
    exists sub,
      subcomponents tree = [sub] /\
      TZNAME sub = name_at tz 0 /\
      fromutc tz t = Ok (DTSTART sub) /\
      offset_at tz 0 = PyTimedelta (TZOFFSETTO sub) /\
      TZOFFSETFROM sub = TZOFFSETTO sub /\
      RDATE sub = None.
Proof.
  intros now_first now_last tz t first_date last_date tree Hdyn Hbuild.
  destruct (create_timezone_Ok _ _ _ _ _ _ _ (proj1 Hdyn) Hbuild)
    as (st & d & Hscan & _ & _).
  destruct (scan_within_bounds _ _ _ _ _ Hscan) as [Hf [Hl _]].
  unfold valid_index in Hf, Hl. cbn [List.length] in Hf, Hl.
  assert (Hf0 : first_num st = 0) by lia.
  assert (Hl0 : last_num st = 0) by lia.
  destruct (single_position_tree _ _ _ _ _ _ _ _ Hdyn Hscan
              ltac:(lia) Hbuild)
    as (sub & Hsubs & Hn & _ & Hd & Hto & [previous [Hp Hfrom]] & Hr).
  pose proof (selected_fromutc _ _ _ _ _ _ _ _ 0 Hdyn Hscan Hbuild
                ltac:(lia)) as Hfu.
  rewrite Hf0 in Hn, Hd, Hto, Hp.
  assert (Hlen : List.length (transition_info tz) = List.length [t])
    by apply Hdyn.
  rewrite (previous_index_zero tz [t] Hlen) in Hp
    by (unfold valid_index; cbn; lia).
  injection Hp as <-. cbn in Hfrom. fold (offset_at tz 0) in Hfrom.
  exists sub. repeat split; try assumption.
  - rewrite Hd. exact Hfu.
  - rewrite Hto in Hfrom. now injection Hfrom.
Qed.

(** X7 on a zone with one transition. *)
Lemma X7_witness :
  dynamic_zone single_zone [datetime_min] /\
  exists tree sub,
    create_timezone 0 0 single_zone None None = Ok tree /\
    subcomponents tree = [sub] /\
    TZOFFSETFROM sub = TZOFFSETTO sub /\
    RDATE sub = None.
Proof.
  assert (Hdyn : dynamic_zone single_zone [datetime_min])
    by (repeat split; discriminate).
  split; [exact Hdyn |].
  destruct (create_timezone 0 0 single_zone None None) as [tree | e] eqn:Hb;
    [| vm_compute in Hb; discriminate].
  destruct (X7_history_of_one_transition 0 0 single_zone datetime_min
              None None tree Hdyn Hb)
    as (sub & Hsubs & _ & _ & _ & Hsame & Hr).
  exists tree, sub. repeat split; assumption.
Defined.

(** X8.  The sub-components of a returned tree come in the order in
    which their names are first met in the selected range. *)
Theorem X8_subcomponents_in_first_seen_order :
  forall (now_first now_last : Z) (tz : tzobject) (times : list Z)
         (first_date last_date : option Z) (st : scan_state)
         (tree : Timezone),
    dynamic_zone tz times ->
    scan (aware_history tz) times
        (or_now now_first first_date) (or_now now_last last_date) = Ok st ->
    create_timezone now_first now_last tz first_date last_date = Ok tree ->
    map TZNAME (subcomponents tree)
      = first_seen (map (name_at tz)
                        (py_range (first_num st) (last_num st + 1))).
Proof.
  intros now_first now_last tz times first_date last_date st tree
         Hdyn Hscan Hbuild.
  destruct (create_timezone_tree _ _ _ _ _ _ _ _ Hdyn Hscan Hbuild)
    as [d [Hsubs [_ Hinv]]].
  rewrite Hsubs, (proj1 (group_invariant_names _ _ _ _ Hinv)).
  apply Hinv.
Qed.

(** X8 on the sample zone with the window that selects the whole
    history: LMT, CEST, CET, CEST gives LMT, CEST, CET. *)
Lemma X8_witness :
  dynamic_zone sample_zone sample_times /\
  scan true sample_times (or_now 0 (Some early_first_date))
       (or_now 0 (Some sample_last_date)) = Ok early_state /\
  create_timezone 0 0 sample_zone
    (Some early_first_date) (Some sample_last_date) = Ok early_tree /\
  map TZNAME (subcomponents early_tree)
    = first_seen (map (name_at sample_zone) (py_range 0 (3 + 1))).
Proof.
  split; [exact sample_zone_dynamic |].
  split; [exact early_scan |]. split; [exact early_build |].
  exact (X8_subcomponents_in_first_seen_order 0 0 sample_zone sample_times
           (Some early_first_date) (Some sample_last_date)
           early_state early_tree
           sample_zone_dynamic early_scan early_build).
Defined.

(** X9.  The class of a sub-component is decided by the first transition
    of its name in the selected range alone: it is DAYLIGHT when the
    [dst] entry of that transition is truthy and STANDARD when it is not,
    whatever the later transitions of the same name record. *)
Theorem X9_class_from_first_occurrence :
  forall (now_first now_last : Z) (tz : tzobject) (times : list Z)
         (first_date last_date : option Z) (st : scan_state)
         (tree : Timezone) (sub : Subcomponent),
    dynamic_zone tz times ->
    scan (aware_history tz) times
        (or_now now_first first_date) (or_now now_last last_date) = Ok st ->
    create_timezone now_first now_last tz first_date last_date = Ok tree ->
    In sub (subcomponents tree) ->
    exists first later,
      occurrences tz (TZNAME sub)
        (py_range (first_num st) (last_num st + 1)) = first :: later /\
      (truthy (info_dst (entry_at tz first)) = true ->
       component sub = DAYLIGHT) /\
      (truthy (info_dst (entry_at tz first)) = false ->
       component sub = STANDARD).
Proof.
  intros now_first now_last tz times first_date last_date st tree sub
         Hdyn Hscan Hbuild Hin.
  destruct (create_timezone_tree _ _ _ _ _ _ _ _ Hdyn Hscan Hbuild)
    as [d [Hsubs [_ Hinv]]].
  rewrite Hsubs in Hin.
  destruct (proj2 (group_invariant_names _ _ _ _ Hinv) sub Hin)
    as (first & later & Hocc & _ & Hc & _).
  exists first, later. split; [exact Hocc |].
  split; intros Hflag; now rewrite Hc, Hflag.
Qed.

(** X9 on the first sub-component of the sample tree. *)
Lemma X9_witness :
  dynamic_zone sample_zone sample_times /\
  scan true sample_times (or_now 0 (Some sample_first_date))
       (or_now 0 (Some sample_last_date)) = Ok sample_state /\
  create_timezone 0 0 sample_zone
    (Some sample_first_date) (Some sample_last_date) = Ok sample_tree /\
  In sample_CEST (subcomponents sample_tree) /\
  exists first later,
    occurrences sample_zone (TZNAME sample_CEST) (py_range 1 (3 + 1))
      = first :: later /\
    (truthy (info_dst (entry_at sample_zone first)) = true ->
     component sample_CEST = DAYLIGHT) /\
    (truthy (info_dst (entry_at sample_zone first)) = false ->
     component sample_CEST = STANDARD).
Proof.
  assert (Hin : In sample_CEST (subcomponents sample_tree))
    by (left; reflexivity).
  split; [exact sample_zone_dynamic |].
  split; [exact sample_scan |]. split; [exact sample_build |].
  split; [exact Hin |].
  exact (X9_class_from_first_occurrence 0 0 sample_zone sample_times
           (Some sample_first_date) (Some sample_last_date)
           sample_state sample_tree sample_CEST
           sample_zone_dynamic sample_scan sample_build Hin).
Defined.

(** X10.  A zone object whose history is there and empty gets no tree,
    whatever the window: the build raises, at the latest on the read of
    position 0 on line 100. *)
Theorem X10_empty_history_returns_no_tree :
  forall (now_first now_last : Z) (tz : tzobject)
         (first_date last_date : option Z) (tree : Timezone),
    utc_transition_times tz = Some [] ->
    create_timezone now_first now_last tz first_date last_date <> Ok tree.
Proof.
  intros now_first now_last tz first_date last_date tree Hattr Hbuild.
  destruct (create_timezone_Ok _ _ _ _ _ _ _ Hattr Hbuild)
    as (st & d & Hscan & _).
  rewrite scan_empty in Hscan. discriminate.
Qed.

(** X10 on a zone object with an empty history. *)
Lemma X10_witness :
  utc_transition_times empty_history_zone = Some [] /\
  forall tree, create_timezone 0 0 empty_history_zone None None <> Ok tree.
Proof.
  split; [reflexivity |].
  intros tree.
  exact (X10_empty_history_returns_no_tree 0 0 empty_history_zone
           None None tree eq_refl).
Defined.

(** X11.  When [_transition_info] has no entry for some position of the
    selected range, the build returns no tree. *)
Theorem X11_missing_info_entry_returns_no_tree :
  forall (now_first now_last : Z) (tz : tzobject) (times : list Z)
         (first_date last_date : option Z) (st : scan_state) (num : Z)
         (tree : Timezone),
    utc_transition_times tz = Some times ->
    scan (aware_history tz) times
        (or_now now_first first_date) (or_now now_last last_date) = Ok st ->
    first_num st <= num <= last_num st ->
    Z.of_nat (List.length (transition_info tz)) <= num ->
    create_timezone now_first now_last tz first_date last_date <> Ok tree.
Proof.
  intros now_first now_last tz times first_date last_date st num tree
         Hattr Hscan Hnum Hshort Hbuild.
  destruct (create_timezone_Ok _ _ _ _ _ _ _ Hattr Hbuild)
    as (st' & d & Hscan' & Hloop & _).
  rewrite Hscan in Hscan'. injection Hscan' as <-.
  destruct (group_loop_reads _ _ _ _ _ Hloop num)
    as (info & _ & _ & Hinfo & _).
  - apply py_range_In. lia.
  - apply py_index_returns in Hinfo. lia.
Qed.

(** X11 on the sample history with the information of the transitions 2
    and 3 missing. *)
Lemma X11_witness :
  utc_transition_times short_info_zone = Some sample_times /\
  scan (aware_history short_info_zone) sample_times
       (or_now 0 (Some sample_first_date))
       (or_now 0 (Some sample_last_date)) = Ok sample_state /\
  first_num sample_state <= 2 <= last_num sample_state /\
  Z.of_nat (List.length (transition_info short_info_zone)) <= 2 /\
  forall tree,
    create_timezone 0 0 short_info_zone
      (Some sample_first_date) (Some sample_last_date) <> Ok tree.
Proof.
  assert (Hnum : first_num sample_state <= 2 <= last_num sample_state)
    by (cbn; lia).
  assert (Hshort : Z.of_nat (List.length (transition_info short_info_zone))
                   <= 2) by (cbn; lia).
  split; [reflexivity |]. split; [exact sample_scan |].
  split; [exact Hnum |]. split; [exact Hshort |].
  intros tree.
  exact (X11_missing_info_entry_returns_no_tree 0 0 short_info_zone
           sample_times (Some sample_first_date) (Some sample_last_date)
           sample_state 2 tree eq_refl sample_scan Hnum Hshort).
Defined.





(** X19.  Where a tree is returned, every position of the selected range
    was read: [_transition_info] has an entry there and [tz.fromutc] has
    returned for its instant, the local start the tree shows for it. *)
Theorem X19_selected_transitions_were_read :
  forall (now_first now_last : Z) (tz : tzobject) (times : list Z)
         (first_date last_date : option Z) (st : scan_state)
         (tree : Timezone) (num : Z),
    utc_transition_times tz = Some times ->
    scan (aware_history tz) times
        (or_now now_first first_date) (or_now now_last last_date) = Ok st ->
    create_timezone now_first now_last tz first_date last_date = Ok tree ->
    first_num st <= num <= last_num st ->
    (exists info, py_index (transition_info tz) num = Ok info) /\
    fromutc tz (time_at times num) = Ok (local_start tz times num).
Proof.
  intros now_first now_last tz times first_date last_date st tree num
         Hattr Hscan Hbuild Hnum.
  destruct (create_timezone_Ok _ _ _ _ _ _ _ Hattr Hbuild)
    as (st' & d & Hscan' & Hloop & _).
  rewrite Hscan in Hscan'. injection Hscan' as <-.
  assert (Hin : In num (py_range (first_num st) (last_num st + 1)))
    by (apply py_range_In; lia).
  destruct (group_loop_reads _ _ _ _ _ Hloop num Hin)
    as (info & transtime & ttime & Hinfo & Htime & Hfu).
  split; [now exists info |].
  pose proof (selected_valid _ _ _ _ _ Hscan num Hin) as Hv.
  rewrite (py_index_inside times num 0 Hv) in Htime.
  injection Htime as <-. fold (time_at times num) in Hfu.
  unfold local_start. now rewrite Hfu.
Qed.

(** X19 at transition 2 of the sample zone and window. *)
Lemma X19_witness :
  utc_transition_times sample_zone = Some sample_times /\
  scan (aware_history sample_zone) sample_times
       (or_now 0 (Some sample_first_date))
       (or_now 0 (Some sample_last_date)) = Ok sample_state /\
  create_timezone 0 0 sample_zone
    (Some sample_first_date) (Some sample_last_date) = Ok sample_tree /\
  first_num sample_state <= 2 <= last_num sample_state /\
  (exists info, py_index (transition_info sample_zone) 2 = Ok info) /\
  fromutc sample_zone (time_at sample_times 2)
    = Ok (local_start sample_zone sample_times 2).
Proof.
  assert (Hnum : first_num sample_state <= 2 <= last_num sample_state)
    by (cbn; lia).
  split; [reflexivity |]. split; [exact sample_scan |].
  split; [exact sample_build |]. split; [exact Hnum |].
  exact (X19_selected_transitions_were_read 0 0 sample_zone sample_times
           (Some sample_first_date) (Some sample_last_date)
           sample_state sample_tree 2
           eq_refl sample_scan sample_build Hnum).
Defined.

(** ** The two static builders, lines 57-67 and 148-170 *)

(** X13.  For a zone without a history whose offset is a timedelta, the
    static path of [create_timezone] and [_create_timezone_static] return
    the same tree exactly when that offset is [timedelta(0)] and the
    [zone] attribute, when there is one, is the display string of the
    zone. *)
Theorem X13_static_builders_agree_at_UTC_only :
  forall (now_first now_last : Z) (tz : tzobject)
         (first_date last_date : option Z) (offset : Z),
    static_zone tz ->
    utcoffset_None tz = PyTimedelta offset ->
    (create_timezone now_first now_last tz first_date last_date
       = _create_timezone_static tz <->
     offset = 0 /\
     match zone tz with Some z => z | None => str tz end = str tz).
Proof.
  intros now_first now_last tz first_date last_date offset Hstatic Hoff.
  rewrite (create_timezone_static _ _ _ _ _ Hstatic).
  unfold _create_timezone_static. rewrite Hoff. split.
  - intros H. injection H as Hid _ Hto _. split; [now symmetry | exact Hid].
  - intros [-> ->]. reflexivity.
Qed.

(** X13 on [pytz.utc] and on [Etc/GMT-1]. *)
Lemma X13_witness :
  static_zone UTC_zone /\
  utcoffset_None UTC_zone = PyTimedelta 0 /\
  create_timezone 0 0 UTC_zone None None = _create_timezone_static UTC_zone /\
  static_zone Etc_GMT_minus_1 /\
  utcoffset_None Etc_GMT_minus_1 = PyTimedelta (hours 1) /\
  create_timezone 0 0 Etc_GMT_minus_1 None None
    <> _create_timezone_static Etc_GMT_minus_1.
Proof.
  assert (H1 : static_zone UTC_zone) by (split; reflexivity).
  assert (H2 : static_zone Etc_GMT_minus_1) by (split; reflexivity).
  split; [exact H1 |]. split; [reflexivity |]. split.
  - apply (proj2 (X13_static_builders_agree_at_UTC_only 0 0 UTC_zone
                    None None 0 H1 eq_refl)).
    split; reflexivity.
  - split; [exact H2 |]. split; [reflexivity |]. intros Heq.
    destruct (proj1 (X13_static_builders_agree_at_UTC_only 0 0
                       Etc_GMT_minus_1 None None (hours 1) H2 eq_refl) Heq)
      as [Hzero _].
    discriminate Hzero.
Defined.

(** X14.  For a zone without a history whose offset is not a timedelta,
    [_create_timezone_static] raises [ValueError] with a message that
    names the expected type and the type received, while the static path
    of [create_timezone] raises nothing and returns its tree with
    [timedelta(0)] as both offsets. *)
Theorem X14_static_builders_on_a_malformed_offset :
  forall (now_first now_last : Z) (tz : tzobject)
         (first_date last_date : option Z),
    static_zone tz ->
    is_timedelta (utcoffset_None tz) = false ->
    _create_timezone_static tz =
      Raise (ValueError
               (String.append "Expected timedelta, got "
                  (type_repr (utcoffset_None tz)))) /\
    exists tree,
      create_timezone now_first now_last tz first_date last_date = Ok tree /\
      map TZOFFSETTO (subcomponents tree) = [0] /\
      map TZOFFSETFROM (subcomponents tree) = [0].
Proof.
  intros now_first now_last tz first_date last_date Hstatic Hbad. split.
  - unfold _create_timezone_static.
    destruct (utcoffset_None tz); try reflexivity. discriminate.
  - rewrite (create_timezone_static _ _ _ _ _ Hstatic).
    eexists. split; [reflexivity |]. split; reflexivity.
Qed.

(** X14 on a zone whose offset is the plain number 3600. *)
Lemma X14_witness :
  static_zone static_plain_number /\
  is_timedelta (utcoffset_None static_plain_number) = false /\
  _create_timezone_static static_plain_number =
    Raise (ValueError "Expected timedelta, got <class 'int'>") /\
  exists tree,
    create_timezone 0 0 static_plain_number None None = Ok tree /\
    map TZOFFSETTO (subcomponents tree) = [0] /\
    map TZOFFSETFROM (subcomponents tree) = [0].
Proof.
  assert (H1 : static_zone static_plain_number) by (split; reflexivity).
  split; [exact H1 |]. split; [reflexivity |].
  exact (X14_static_builders_on_a_malformed_offset 0 0 static_plain_number
           None None H1 eq_refl).
Defined.

(** ** The UTC normaliser, lines 32-41 *)





(** X17.  A round trip: the value [to_naive_utc] returns for an aware
    datetime, tagged as UTC again, is normalised to itself. *)
Theorem X17_to_naive_utc_round_trip_through_UTC :
  forall (wall : Z) (tz : tzinfo) (v : pydt),
    to_naive_utc (PyDatetime wall (Some tz)) = Ok v ->
    get_tzinfo v = None /\
    wall_clock v = wall - tzinfo_utcoffset tz wall /\
    to_naive_utc (PyDatetime (wall_clock v) (Some pytz_UTC)) = Ok v.
Proof.
  intros wall tz v H.
  unfold to_naive_utc, astimezone_UTC, datetime_sub in H. cbn in H.
  destruct (in_datetime_range (wall - tzinfo_utcoffset tz wall)) eqn:Hr;
    cbn in H; [| discriminate].
  injection H as <-. split; [reflexivity |]. split; [reflexivity |].
  unfold to_naive_utc, astimezone_UTC, datetime_sub. cbn.
  rewrite Z.sub_0_r, Hr. reflexivity.
Qed.

(** X17 at noon of the first of March 2024 in UTC+01:00. *)
Lemma X17_witness :
  exists v,
    to_naive_utc
      (PyDatetime (naive_datetime 2024 3 1 + hours 12)
                  (Some fixed_plus_one_hour)) = Ok v /\
    wall_clock v = naive_datetime 2024 3 1 + hours 11 /\
    to_naive_utc (PyDatetime (wall_clock v) (Some pytz_UTC)) = Ok v.
Proof.
  eexists. split; [vm_compute; reflexivity |].
  destruct (X17_to_naive_utc_round_trip_through_UTC
              (naive_datetime 2024 3 1 + hours 12) fixed_plus_one_hour
              (PyDatetime (naive_datetime 2024 3 1 + hours 11) None))
    as (_ & _ & Hround).
  - vm_compute. reflexivity.
  - split; [vm_compute; reflexivity | exact Hround].
Defined.
